(** * PhoneDealFinder: the price monitor of [backend/price_monitor.py]

    A shallow embedding of the price-acquisition and change-detection
    pipeline: page extraction, the history store, drop detection, the two
    notification sinks and the run orchestrator.

    Python [float] is IEEE binary64 and is modelled by Rocq's primitive
    floats; Python [str] is modelled by [string] (one-byte characters).
    Exceptions are explicit ([result]) and effects are threaded through a
    state-and-error monad over a [world]. *)

From Stdlib Require Import List String Ascii ZArith Bool Lia.
From Stdlib Require Import Floats.
Import ListNotations.

#[local] Set Warnings "-inexact-float".

Local Open Scope string_scope.
Local Open Scope list_scope.

(** ** Binary64 values *)

Module F64.

Local Open Scope float_scope.

(** Python's truth value of a float: [x != 0.0]. *)
Definition truthy (x : PrimFloat.float) : bool := negb (x =? 0).


End F64.

(** ** Python values and builtins the program relies on *)

(** The exception classes the program raises or handles. *)
Inductive exn : Type :=
| RequestException      (* requests: connection, timeout, HTTP status *)
| ValueError
| AttributeError
| ZeroDivisionError
| IndexError
| KeyError
| IOError
| JSONDecodeError
| SMTPException.

(** [is_a e c]: an exception of class [e] is caught by [except c].
    [JSONDecodeError] derives from [ValueError]; [RequestException] and
    [SMTPException] derive from [IOError] (an alias of [OSError]). *)
Definition is_a (e c : exn) : bool :=
  match e, c with
  | RequestException, (RequestException | IOError) => true
  | ValueError, ValueError => true
  | AttributeError, AttributeError => true
  | ZeroDivisionError, ZeroDivisionError => true
  | IndexError, IndexError => true
  | KeyError, KeyError => true
  | IOError, IOError => true
  | JSONDecodeError, (JSONDecodeError | ValueError) => true
  | SMTPException, (SMTPException | IOError) => true
  | _, _ => false
  end.

Inductive result (A : Type) : Type :=
| Ok (a : A)
| Raise (e : exn).
Arguments Ok {A} a.
Arguments Raise {A} e.

(** *** Strings *)

Definition isdigit (c : ascii) : bool :=
  let n := nat_of_ascii c in (48 <=? n)%nat && (n <=? 57)%nat.

(** [str.isspace] on one-byte characters: tab to carriage return, the four
    separators 28..31 and the blank. *)
Definition isspace (c : ascii) : bool :=
  let n := nat_of_ascii c in
  ((9 <=? n)%nat && (n <=? 13)%nat) || ((28 <=? n)%nat && (n <=? 32)%nat).

(** The double quote, for the selectors that contain it. *)
Definition dquote : string := String "034"%char EmptyString.

(** [''.join(filter(keep, s))] *)
Fixpoint str_filter (keep : ascii -> bool) (s : string) : string :=
  match s with
  | EmptyString => EmptyString
  | String c s' =>
      if keep c then String c (str_filter keep s') else str_filter keep s'
  end.

(** [s.replace(',', '')] *)
Definition remove_commas (s : string) : string :=
  str_filter (fun c => negb (Ascii.eqb c ","%char)) s.

(** Truth value of a [str]: non-empty. *)
Definition str_truthy (s : string) : bool :=
  match s with EmptyString => false | String _ _ => true end.

(** [s.split()]: the maximal runs of non-space characters, in order. *)
Fixpoint split_from (s : string) (word : string) : list string :=
  match s with
  | EmptyString => if str_truthy word then [word] else []
  | String c s' =>
      if isspace c
      then (if str_truthy word then word :: split_from s' EmptyString
            else split_from s' EmptyString)
      else split_from s' (word ++ String c EmptyString)%string
  end.

Definition py_split (s : string) : list string := split_from s EmptyString.

(** *** Floats *)

Local Open Scope float_scope.

(** [x / y] raises [ZeroDivisionError] exactly when [y == 0.0]. *)
Definition truediv (x y : float) : result float :=
  if y =? 0 then Raise ZeroDivisionError else Ok (x / y).

(** [min(x :: l)]: the running least element, replaced only by an element
    strictly below it. *)
Definition py_min (x : float) (l : list float) : float :=
  fold_left (fun best y => if y <? best then y else best) l x.

(** *** History entries

    An entry of the history is a dict with the keys below; a key that is
    absent is [None], which is what [d.get(key)] answers. *)
Module Entry.
Record t : Type := Build {
  timestamp : option string;
  model : option string;
  price : option float;
  source : option string;
  url : option string;
  image_url : option string
}.
End Entry.
Definition entry : Type := Entry.t.

(** The builtins whose text formats are Python's own: [float(s)] and
    [int(s)] ([None] stands for [ValueError]), and the [json] codec for a
    history: [json.dump(data, f, indent=n)] and [json.load(f)] ([None]
    stands for [JSONDecodeError]). *)
Record python : Type := {
  float_of_str : string -> option float;
  int_of_str : string -> option Z;
  json_dump : list entry -> nat -> string;
  json_load : string -> option (list entry)
}.

(** ** The outside world *)

(** A parsed page as [BeautifulSoup] exposes it to the program:
    [select soup sel] is the stripped text of every element matching the
    CSS selector [sel], in document order. *)
Definition soup : Type := string -> list string.

Definition select (page : soup) (selector : string) : list string :=
  page selector.

Definition select_one (page : soup) (selector : string) : option string :=
  match page selector with
  | [] => None
  | elem :: _ => Some elem
  end.

Record response : Type := {
  status_code : Z;
  content : soup
}.

Record webhook_payload : Type := {
  wp_model : string;
  wp_old_price : float;
  wp_new_price : float;
  wp_savings : float;
  wp_drop_percent : float;
  wp_timestamp : string
}.

Record email : Type := {
  msg_from : string;
  msg_to : string;
  msg_subject : string;
  body_model : string;
  body_old_price : float;
  body_new_price : float;
  body_savings : float;
  body_drop_percent : float
}.

(** How [open(PRICES_FILE, 'w')] followed by the dump behaves. *)
Inductive write_outcome : Type :=
| WriteOk
| OpenFails                  (* IOError before the file is touched *)
| WriteFails (written : nat) (* IOError after [written] characters *).

(** What the program cannot control: environment variables, the network,
    the mail server, the clock and the disk. *)
Record platform : Type := {
  environ : string -> option string;
  requests_get : string -> option response;      (* None: RequestException *)
  requests_post : string -> webhook_payload -> option response;
  smtp_session : string -> Z -> string -> string -> email -> option exn;
  datetime_now : nat -> string;                  (* isoformat of reading n *)
  disk_write : write_outcome;
  disk_read_fails : bool
}.

Inductive level : Type := DEBUG | INFO | WARNING | ERROR.

Inductive log_msg : Type :=
| MsgLoadError (e : exn)
| MsgSaved (n : nat)
| MsgSaveError (e : exn)
| MsgAppleNotFound
| MsgAppleFetchError (e : exn)
| MsgAppleParseError (e : exn)
| MsgReebeloNotFound
| MsgReebeloFetchError (e : exn)
| MsgReebeloParseError (e : exn)
| MsgUnknownModel (model : string)
| MsgFetching (model source : string)
| MsgUnknownSource (source : string)
| MsgSmtpNotConfigured
| MsgEmailSent (model : string)
| MsgEmailError (e : exn)
| MsgWebhookNotConfigured
| MsgWebhookSent (model : string)
| MsgWebhookError (e : exn)
| MsgStarting
| MsgSkipping (model : string)
| MsgPrice (model : string) (price : float)
| MsgDropDetected (model : string) (old_price price : float)
| MsgCompleted.

Inductive event : Type :=
| EvLog (lvl : level) (msg : log_msg)
| EvSleep
| EvGet (url : string)
| EvPost (url : string) (payload : webhook_payload)
| EvSmtp (host : string) (port : Z) (msg : email).

(** The mutable state of one run: what happened so far, how often the
    clock was read, the contents of [prices.json] (if it exists) and the two
    list objects [main] appends to. *)
Record world : Type := {
  events : list event;
  ticks : nat;
  prices_file : option string;
  prices : list entry;
  new_entries : list entry
}.

(** ** State and exceptions *)

Definition M (A : Type) : Type := world -> result A * world.

Definition ret {A : Type} (a : A) : M A := fun w => (Ok a, w).

Definition bind {A B : Type} (m : M A) (k : A -> M B) : M B :=
  fun w =>
    match m w with
    | (Ok a, w') => k a w'
    | (Raise e, w') => (Raise e, w')
    end.

Definition raise {A : Type} (e : exn) : M A := fun w => (Raise e, w).

Definition lift {A : Type} (r : result A) : M A := fun w => (r, w).

Declare Scope py_scope.
Delimit Scope py_scope with py.
Notation "x <- m ;; k" := (bind m (fun x => k))
  (at level 61, m at next level, right associativity) : py_scope.
Notation "m ;; k" := (bind m (fun _ => k))
  (at level 61, right associativity) : py_scope.
Local Open Scope py_scope.

(** [try: body except c1: h1 except c2: h2 ...]: the first clause whose
    class matches handles the exception; with none it propagates. *)
Fixpoint dispatch {A : Type} (clauses : list (exn * (exn -> M A))) (e : exn)
  : M A :=
  match clauses with
  | [] => raise e
  | (c, h) :: rest => if is_a e c then h e else dispatch rest e
  end.

Definition try_except {A : Type} (body : M A)
  (clauses : list (exn * (exn -> M A))) : M A :=
  fun w =>
    match body w with
    | (Ok a, w') => (Ok a, w')
    | (Raise e, w') => dispatch clauses e w'
    end.

(** [except Exception]: every class above derives from it. *)
Definition try_except_all {A : Type} (body : M A) (h : exn -> M A) : M A :=
  fun w =>
    match body w with
    | (Ok a, w') => (Ok a, w')
    | (Raise e, w') => h e w'
    end.

Definition emit (ev : event) : M unit :=
  fun w => (Ok tt, {| events := events w ++ [ev]; ticks := ticks w;
                      prices_file := prices_file w; prices := prices w;
                      new_entries := new_entries w |}).

Definition logger (lvl : level) (msg : log_msg) : M unit := emit (EvLog lvl msg).

(** ** Configuration *)

Module Config.
Record t : Type := Build {
  source : string;
  url : string;
  storage : string;
  image_url : string
}.
End Config.

Definition RATE_LIMIT_DELAY : float := 2.5.

Definition MODELS : list (string * Config.t) :=
  [ ("iPhone 15 Pro Max",
     {| Config.source := "apple_refurbished";
        Config.url := "https://www.apple.com/shop/product/refurbished/iphone/iphone-15-pro-max";
        Config.storage := "256GB";
        Config.image_url := "https://store.storeimages.cdn-apple.com/4982/as-images.apple.com/is/refurb-iphone-15-pro-max-naturaltitanium-256gb?wid=200&hei=200&fmt=jpeg&qlt=90&.v=1694026287138" |});
    ("iPhone 16 Pro Max",
     {| Config.source := "reebelo";
        Config.url := "https://www.reebelo.com/search?q=iphone+16+pro+max+256gb";
        Config.storage := "256GB";
        Config.image_url := "https://store.storeimages.cdn-apple.com/4982/as-images.apple.com/is/iphone-16-pro-max-naturaltitanium-select?wid=200&hei=200&fmt=jpeg&qlt=90&.v=1726616109456" |});
    ("iPhone 17 Pro Max",
     {| Config.source := "reebelo";
        Config.url := "https://www.reebelo.com/search?q=iphone+17+pro+max+256gb";
        Config.storage := "256GB";
        Config.image_url := "https://store.storeimages.cdn-apple.com/4982/as-images.apple.com/is/iphone-16-pro-max-naturaltitanium-select?wid=200&hei=200&fmt=jpeg&qlt=90&.v=1726616109456" |}) ].

(** [MODELS.get(model)] *)
Fixpoint dict_get {V : Type} (d : list (string * V)) (key : string) : option V :=
  match d with
  | [] => None
  | (k, v) :: d' => if String.eqb k key then Some v else dict_get d' key
  end.

(** [MODELS.keys()], in insertion order. *)
Definition keys {V : Type} (d : list (string * V)) : list string := map fst d.

(** ** World updates *)

Definition set_file (w : world) (f : option string) : world :=
  {| events := events w; ticks := ticks w; prices_file := f;
     prices := prices w; new_entries := new_entries w |}.

Definition set_prices (w : world) (l : list entry) : world :=
  {| events := events w; ticks := ticks w; prices_file := prices_file w;
     prices := l; new_entries := new_entries w |}.

Definition set_new_entries (w : world) (l : list entry) : world :=
  {| events := events w; ticks := ticks w; prices_file := prices_file w;
     prices := prices w; new_entries := l |}.

Definition tick (w : world) : world :=
  {| events := events w; ticks := S (ticks w); prices_file := prices_file w;
     prices := prices w; new_entries := new_entries w |}.

(** ** The program *)

Section Monitor.

Variable py : python.
Variable os : platform.

(** [os.getenv(key, default)] *)
Definition getenv (key default : string) : string :=
  match environ os key with
  | Some v => v
  | None => default
  end.

(** [datetime.now().isoformat()] *)
Definition now_isoformat : M string :=
  fun w => (Ok (datetime_now os (ticks w)), tick w).

(** [time.sleep(RATE_LIMIT_DELAY)] *)
Definition sleep (seconds : float) : M unit := emit EvSleep.

(** [float(s)] and [int(s)] *)
Definition float (s : string) : result PrimFloat.float :=
  match float_of_str py s with
  | Some x => Ok x
  | None => Raise ValueError
  end.

Definition int (s : string) : result Z :=
  match int_of_str py s with
  | Some n => Ok n
  | None => Raise ValueError
  end.

(** *** History store *)

(** [with open(PRICES_FILE, 'r') as f: json.load(f)] *)
Definition read_json : M (list entry) :=
  fun w =>
    if disk_read_fails os then (Raise IOError, w)
    else match prices_file w with
         | None => (Raise IOError, w)
         | Some text =>
             match json_load py text with
             | Some data => (Ok data, w)
             | None => (Raise JSONDecodeError, w)
             end
         end.

Definition load_prices : M (list entry) :=
  fun w =>
    match prices_file w with
    | Some _ =>                                       (* os.path.exists *)
        try_except read_json
          [ (JSONDecodeError,
             fun e => logger WARNING (MsgLoadError e) ;; ret []);
            (IOError,
             fun e => logger WARNING (MsgLoadError e) ;; ret []) ] w
    | None => (Ok [], w)
    end.

(** [with open(PRICES_FILE, 'w') as f: json.dump(prices, f, indent=2)] *)
Definition write_json (data : list entry) (indent : nat) : M unit :=
  fun w =>
    let text := json_dump py data indent in
    match disk_write os with
    | WriteOk => (Ok tt, set_file w (Some text))
    | OpenFails => (Raise IOError, w)
    | WriteFails n => (Raise IOError, set_file w (Some (substring 0 n text)))
    end.

Definition save_prices (prices : list entry) : M unit :=
  try_except
    (write_json prices 2 ;;
     logger INFO (MsgSaved (List.length prices)))
    [ (IOError, fun e => logger ERROR (MsgSaveError e)) ].

(** *** Page fetcher and price extractors *)

(** [requests.get(url, headers=headers, timeout=10)] *)
Definition get (url : string) : M response :=
  emit (EvGet url) ;;
  match requests_get os url with
  | Some r => ret r
  | None => raise RequestException
  end.

(** [response.raise_for_status()]: 4xx and 5xx raise [HTTPError]. *)
Definition raise_for_status (r : response) : M unit :=
  if ((400 <=? status_code r) && (status_code r <? 600))%Z
  then raise RequestException
  else ret tt.

Definition apple_price_selectors : list string :=
  [ ("span[class*=" ++ dquote ++ "price" ++ dquote ++ "]")%string;
    ("div[class*=" ++ dquote ++ "price" ++ dquote ++ "]")%string;
    ("[data-autom=" ++ dquote ++ "price" ++ dquote ++ "]")%string;
    ".as-price-currentprice" ].

(** The [for selector in price_selectors] loop of the storefront
    extractor; [Some p] is its [return p], [None] is falling out of it. *)
Fixpoint apple_scan (page : soup) (selectors : list string)
  : result (option PrimFloat.float) :=
  match selectors with
  | [] => Ok None
  | selector :: rest =>
      match select_one page selector with
      | Some price_text =>
          let price_str := str_filter isdigit (remove_commas price_text) in
          if str_truthy price_str then
            if (2 <? String.length price_str)%nat then
              match float price_str with
              | Ok x => Ok (Some (x / 100))
              | Raise e => Raise e
              end
            else
              match float price_str with
              | Ok x => Ok (Some x)
              | Raise e => Raise e
              end
          else apple_scan page rest
      | None => apple_scan page rest
      end
  end.

Definition fetch_apple_refurbished_price (url : string)
  : M (option PrimFloat.float) :=
  try_except
    (response <- get url ;;
     raise_for_status response ;;
     let page := content response in
     found <- lift (apple_scan page apple_price_selectors) ;;
     match found with
     | Some p => ret (Some p)
     | None => logger WARNING MsgAppleNotFound ;; ret None
     end)
    [ (RequestException,
       fun e => logger ERROR (MsgAppleFetchError e) ;; ret None);
      (ValueError,
       fun e => logger ERROR (MsgAppleParseError e) ;; ret None);
      (AttributeError,
       fun e => logger ERROR (MsgAppleParseError e) ;; ret None) ].

Definition reebelo_price_selectors : list string :=
  [ ("[class*=" ++ dquote ++ "price" ++ dquote ++ "]")%string;
    "[data-price]"; ".product-price"; ".price-value" ].

(** The inner [for elem in price_elems] loop: a text that [float] rejects
    is skipped ([except ValueError: continue]). *)
Fixpoint reebelo_elems (price_elems : list string)
  (prices_found : list PrimFloat.float) : list PrimFloat.float :=
  match price_elems with
  | [] => prices_found
  | price_text :: rest =>
      let price_str :=
        str_filter (fun x => isdigit x || Ascii.eqb x "."%char)
                   (remove_commas price_text) in
      match float price_str with
      | Ok price =>
          if (100 <? price) && (price <? 5000)
          then reebelo_elems rest (prices_found ++ [price])
          else reebelo_elems rest prices_found
      | Raise _ => reebelo_elems rest prices_found
      end
  end.

(** The outer [for selector in price_selectors] loop. *)
Fixpoint reebelo_scan (page : soup) (selectors : list string)
  (prices_found : list PrimFloat.float) : list PrimFloat.float :=
  match selectors with
  | [] => prices_found
  | selector :: rest =>
      reebelo_scan page rest (reebelo_elems (select page selector) prices_found)
  end.

Definition fetch_reebelo_price (url : string) : M (option PrimFloat.float) :=
  try_except
    (response <- get url ;;
     raise_for_status response ;;
     let page := content response in
     let prices_found := reebelo_scan page reebelo_price_selectors [] in
     match prices_found with
     | p :: l => ret (Some (py_min p l))
     | [] => logger WARNING MsgReebeloNotFound ;; ret None
     end)
    [ (RequestException,
       fun e => logger ERROR (MsgReebeloFetchError e) ;; ret None);
      (ValueError,
       fun e => logger ERROR (MsgReebeloParseError e) ;; ret None);
      (AttributeError,
       fun e => logger ERROR (MsgReebeloParseError e) ;; ret None) ].

Definition fetch_price (model : string) : M (option PrimFloat.float) :=
  match dict_get MODELS model with
  | None => logger ERROR (MsgUnknownModel model) ;; ret None
  | Some config =>
      logger INFO (MsgFetching model (Config.source config)) ;;
      sleep RATE_LIMIT_DELAY ;;
      if String.eqb (Config.source config) "apple_refurbished"
      then fetch_apple_refurbished_price (Config.url config)
      else if String.eqb (Config.source config) "reebelo"
      then fetch_reebelo_price (Config.url config)
      else logger ERROR (MsgUnknownSource (Config.source config)) ;; ret None
  end.

(** *** Drop detector *)

(** [l.sort(key=key, reverse=True)]: descending, and stable (entries with
    equal keys keep their order). *)
Fixpoint insert_reverse {A : Type} (key : A -> string) (x : A) (sorted : list A)
  : list A :=
  match sorted with
  | [] => [x]
  | y :: rest =>
      if String.ltb (key x) (key y)
      then y :: insert_reverse key x rest
      else x :: y :: rest
  end.

Fixpoint sort_reverse {A : Type} (key : A -> string) (l : list A) : list A :=
  match l with
  | [] => []
  | x :: rest => insert_reverse key x (sort_reverse key rest)
  end.

(** [p.get('model') == model] *)
Definition model_is (model : string) (p : entry) : bool :=
  match Entry.model p with
  | Some m => String.eqb m model
  | None => false
  end.

(** [x.get('timestamp', '')] *)
Definition timestamp_key (x : entry) : string :=
  match Entry.timestamp x with
  | Some t => t
  | None => EmptyString
  end.

Definition get_latest_price (prices : list entry) (model : string)
  : option PrimFloat.float :=
  let model_prices := filter (model_is model) prices in
  match model_prices with
  | [] => None
  | _ :: _ =>
      match sort_reverse timestamp_key model_prices with
      | latest :: _ => Entry.price latest
      | [] => None
      end
  end.

Definition check_price_drop (new_price : PrimFloat.float)
  (old_price : option PrimFloat.float) (threshold_percent : PrimFloat.float)
  : result bool :=
  match old_price with
  | None => Ok false
  | Some old_price =>
      match truediv (old_price - new_price) old_price with
      | Ok q => let drop_percent := q * 100 in
                Ok (threshold_percent <=? drop_percent)
      | Raise e => Raise e
      end
  end.

(** *** Notifier *)

(** Truth value of an [Optional[str]] as [all([...])] tests it. *)
Definition opt_truthy (v : option string) : bool :=
  match v with
  | Some s => str_truthy s
  | None => false
  end.

Definition or_empty (v : option string) : string :=
  match v with
  | Some s => s
  | None => EmptyString
  end.

Definition send_email_notification (model : string)
  (old_price new_price : PrimFloat.float) : M bool :=
  let smtp_host := environ os "SMTP_HOST" in
  smtp_port <- lift (int (getenv "SMTP_PORT" "587")) ;;
  let smtp_user := environ os "SMTP_USER" in
  let smtp_password := environ os "SMTP_PASSWORD" in
  let smtp_to := environ os "SMTP_TO" in
  if negb (forallb opt_truthy [smtp_host; smtp_user; smtp_password; smtp_to])
  then logger WARNING MsgSmtpNotConfigured ;; ret false
  else
    try_except_all
      (q <- lift (truediv (old_price - new_price) old_price) ;;
       let drop_percent := q * 100 in
       let savings := old_price - new_price in
       let msg := {| msg_from := or_empty smtp_user;
                     msg_to := or_empty smtp_to;
                     msg_subject := "Price Drop Alert: " ++ model;
                     body_model := model;
                     body_old_price := old_price;
                     body_new_price := new_price;
                     body_savings := savings;
                     body_drop_percent := drop_percent |} in
       emit (EvSmtp (or_empty smtp_host) smtp_port msg) ;;
       match smtp_session os (or_empty smtp_host) smtp_port
               (or_empty smtp_user) (or_empty smtp_password) msg with
       | Some e => raise e
       | None => logger INFO (MsgEmailSent model) ;; ret true
       end)
      (fun e => logger ERROR (MsgEmailError e) ;; ret false).

Definition send_webhook_notification (model : string)
  (old_price new_price : PrimFloat.float) : M bool :=
  let webhook_url := environ os "WEBHOOK_URL" in
  if negb (opt_truthy webhook_url)
  then logger DEBUG MsgWebhookNotConfigured ;; ret false
  else
    try_except_all
      (q <- lift (truediv (old_price - new_price) old_price) ;;
       let drop_percent := q * 100 in
       let savings := old_price - new_price in
       now <- now_isoformat ;;
       let payload := {| wp_model := model;
                         wp_old_price := old_price;
                         wp_new_price := new_price;
                         wp_savings := savings;
                         wp_drop_percent := drop_percent;
                         wp_timestamp := now |} in
       emit (EvPost (or_empty webhook_url) payload) ;;
       match requests_post os (or_empty webhook_url) payload with
       | None => raise RequestException
       | Some response =>
           raise_for_status response ;;
           logger INFO (MsgWebhookSent model) ;; ret true
       end)
      (fun e => logger ERROR (MsgWebhookError e) ;; ret false).

(** *** Orchestrator *)

Definition get_threshold (model : string) : M PrimFloat.float :=
  match nth_error (py_split model) 1 with
  | None => raise IndexError
  | Some number =>
      let threshold_key := ("PRICE_THRESHOLD_" ++ number)%string in
      lift (float (getenv threshold_key "5.0"))
  end.

(** [prices.append(entry)] and [new_entries.append(entry)] *)
Definition prices_append (e : entry) : M unit :=
  fun w => (Ok tt, set_prices w (prices w ++ [e])).

Definition new_entries_append (e : entry) : M unit :=
  fun w => (Ok tt, set_new_entries w (new_entries w ++ [e])).

Definition get_prices : M (list entry) := fun w => (Ok (prices w), w).

(** One iteration of [for model in MODELS.keys()]. *)
Definition main_step (timestamp model : string) : M unit :=
  price <- fetch_price model ;;
  match price with
  | None => logger WARNING (MsgSkipping model)        (* continue *)
  | Some price =>
      match dict_get MODELS model with
      | None => raise KeyError
      | Some config =>
          let entry := {| Entry.timestamp := Some timestamp;
                          Entry.model := Some model;
                          Entry.price := Some price;
                          Entry.source := Some (Config.source config);
                          Entry.url := Some (Config.url config);
                          Entry.image_url := Some (Config.image_url config) |} in
          new_entries_append entry ;;
          prices_append entry ;;
          logger INFO (MsgPrice model price) ;;
          prices <- get_prices ;;
          let old_price := get_latest_price (removelast prices) model in
          match old_price with
          | Some old =>
              if F64.truthy old then                   (* if old_price: *)
                threshold <- get_threshold model ;;
                is_drop <- lift (check_price_drop price old_price threshold) ;;
                if is_drop then
                  logger INFO (MsgDropDetected model old price) ;;
                  send_email_notification model old price ;;
                  send_webhook_notification model old price ;;
                  ret tt
                else ret tt
              else ret tt
          | None => ret tt
          end
      end
  end.

Fixpoint main_loop (timestamp : string) (models : list string) : M unit :=
  match models with
  | [] => ret tt
  | model :: rest => main_step timestamp model ;; main_loop timestamp rest
  end.

Definition main : M unit :=
  logger INFO MsgStarting ;;
  loaded <- load_prices ;;
  (fun w => (Ok tt, set_prices w loaded)) ;;
  timestamp <- now_isoformat ;;
  (fun w => (Ok tt, set_new_entries w [])) ;;
  main_loop timestamp (keys MODELS) ;;
  prices <- get_prices ;;
  save_prices prices ;;
  logger INFO MsgCompleted.

End Monitor.

Arguments float : simpl never.

(** ** The read API of [backend/app.py] *)

Module App.

(** What [jsonify] is given: the stored prices, or an error message. *)
Inductive body : Type :=
| Prices (data : list entry)
| Error (e : exn).

Section Api.

Variable py : python.
Variable os : platform.

(** The handler of [GET /api/prices]: the body and the status. The file is
    the one the monitor writes. *)
Definition get_prices : M (body * Z) :=
  try_except
    (fun w =>
       match prices_file w with
       | Some _ =>                                     (* os.path.exists *)
           (prices <- read_json py os ;; ret (Prices prices, 200%Z)) w
       | None => ret (Prices [], 200%Z) w
       end)
    [ (JSONDecodeError, fun e => ret (Error e, 500%Z));
      (IOError, fun e => ret (Error e, 500%Z)) ].

End Api.

End App.

(** * Vocabulary of the properties *)

(** ** Extraction *)









(** ** Names *)


(** ** Histories *)

(** [x] is the first element of [pre ++ x :: post] with the greatest key:
    the element a stable descending sort puts first. *)
Definition first_greatest {A : Type} (key : A -> string)
  (pre : list A) (x : A) (post : list A) : Prop :=
  (forall p, In p (pre ++ x :: post) -> String.leb (key p) (key x) = true) /\
  (forall p, In p pre -> String.ltb (key p) (key x) = true).

(** ** Traces *)

Definition add_events (w : world) (delta : list event) : world :=
  {| events := events w ++ delta; ticks := ticks w;
     prices_file := prices_file w; prices := prices w;
     new_entries := new_entries w |}.

Definition set_events (w : world) (evs : list event) : world :=
  {| events := evs; ticks := ticks w; prices_file := prices_file w;
     prices := prices w; new_entries := new_entries w |}.

(** The events of a delivery: a webhook request or a mail session. *)
Definition is_notification (ev : event) : bool :=
  match ev with
  | EvPost _ _ | EvSmtp _ _ _ => true
  | _ => false
  end.

Definition not_notification (ev : event) : Prop := is_notification ev = false.

(** The exception a log record reports, if any. *)
Definition msg_exn (msg : log_msg) : option exn :=
  match msg with
  | MsgLoadError e | MsgSaveError e
  | MsgAppleFetchError e | MsgAppleParseError e
  | MsgReebeloFetchError e | MsgReebeloParseError e
  | MsgEmailError e | MsgWebhookError e => Some e
  | _ => None
  end.

(** The event shows a division by zero: a handler logged one. *)
Definition reports_zero_division (ev : event) : bool :=
  match ev with
  | EvLog _ msg =>
      match msg_exn msg with
      | Some ZeroDivisionError => true
      | _ => false
      end
  | _ => false
  end.

(** The event is a log record. *)
Definition is_log (ev : event) : bool :=
  match ev with
  | EvLog _ _ => true
  | _ => false
  end.

(** The events of a fetch: no delivery, no division by zero. *)
Definition fetch_event (ev : event) : Prop :=
  is_notification ev = false /\ reports_zero_division ev = false.

(** The events allowed when the exceptions allowed are [okx]: a log record
    that reports an exception reports an allowed one. *)
Definition clean_of (okx : exn -> Prop) (ev : event) : Prop :=
  match ev with
  | EvLog _ msg =>
      match msg_exn msg with
      | Some e => okx e
      | None => True
      end
  | _ => True
  end.

(** ** Deliveries *)

(** The response has a status that [raise_for_status] accepts. *)
Definition status_ok (r : response) : bool :=
  negb ((400 <=? status_code r) && (status_code r <? 600))%Z.

(** The payload the webhook sink builds in world [w]. *)
Definition payload_for (os : platform) (model : string)
  (old_price new_price : PrimFloat.float) (w : world) : webhook_payload :=
  {| wp_model := model;
     wp_old_price := old_price;
     wp_new_price := new_price;
     wp_savings := (old_price - new_price)%float;
     wp_drop_percent := ((old_price - new_price) / old_price * 100)%float;
     wp_timestamp := datetime_now os (ticks w) |}.

(** The message the email sink builds. *)
Definition message_for (os : platform) (model : string)
  (old_price new_price : PrimFloat.float) : email :=
  {| msg_from := or_empty (environ os "SMTP_USER");
     msg_to := or_empty (environ os "SMTP_TO");
     msg_subject := "Price Drop Alert: " ++ model;
     body_model := model;
     body_old_price := old_price;
     body_new_price := new_price;
     body_savings := (old_price - new_price)%float;
     body_drop_percent := ((old_price - new_price) / old_price * 100)%float |}.

(** All four variables of the email sink are set and non-empty. *)
Definition smtp_configured (os : platform) : bool :=
  forallb opt_truthy
    [environ os "SMTP_HOST"; environ os "SMTP_USER";
     environ os "SMTP_PASSWORD"; environ os "SMTP_TO"].

(** The deliveries recorded in a list of events. *)
Definition deliveries (evs : list event) : list event :=
  filter is_notification evs.

(** What a sink called with [model], [old_price] and [new_price] may add
    to the trace: log records, and a delivery only with its configuration
    in place, a non-zero old price and the content built from the
    arguments. *)
Definition sink_event (py : python) (os : platform) (model : string)
  (old_price new_price : PrimFloat.float) (ev : event) : Prop :=
  match ev with
  | EvLog _ _ => True
  | EvSleep | EvGet _ => False
  | EvPost url p =>
      environ os "WEBHOOK_URL" = Some url /\ str_truthy url = true /\
      (old_price =? 0)%float = false /\
      exists w, p = payload_for os model old_price new_price w
  | EvSmtp host port msg =>
      smtp_configured os = true /\
      environ os "SMTP_HOST" = Some host /\
      int_of_str py (getenv os "SMTP_PORT" "587") = Some port /\
      (old_price =? 0)%float = false /\
      msg = message_for os model old_price new_price
  end.

(** The threshold of a model, as [get_threshold] returns it. *)
Definition threshold_of (py : python) (os : platform) (model : string)
  : result PrimFloat.float :=
  match nth_error (py_split model) 1 with
  | None => Raise IndexError
  | Some number =>
      float py (getenv os ("PRICE_THRESHOLD_" ++ number)%string "5.0")
  end.

(** The change from [old_price] to [new_price] is an alert for [model]:
    the model is in the registry and the drop in percent reaches its
    threshold. *)
Definition alert (py : python) (os : platform) (model : string)
  (old_price new_price : PrimFloat.float) : Prop :=
  (exists config, dict_get MODELS model = Some config) /\
  exists t, threshold_of py os model = Ok t /\
            (t <=? (old_price - new_price) / old_price * 100)%float = true.

(** What a run may add to the trace: log records, sleeps, requests to the
    URLs of the registry, and deliveries of alerts. *)
Definition run_event (py : python) (os : platform) (ev : event) : Prop :=
  match ev with
  | EvLog _ _ | EvSleep => True
  | EvGet url =>
      exists model config,
        dict_get MODELS model = Some config /\ url = Config.url config
  | EvPost _ p =>
      alert py os (wp_model p) (wp_old_price p) (wp_new_price p) /\
      sink_event py os (wp_model p) (wp_old_price p) (wp_new_price p) ev
  | EvSmtp _ _ msg =>
      alert py os (body_model msg) (body_old_price msg) (body_new_price msg) /\
      sink_event py os (body_model msg) (body_old_price msg)
        (body_new_price msg) ev
  end.

(** The pacing events: sleeps and page requests. *)
Definition is_request (ev : event) : bool :=
  match ev with
  | EvSleep | EvGet _ => true
  | _ => false
  end.

(** The pacing events of one model: a sleep, then the request for its
    page; none for a name outside the registry. *)
Definition plan (model : string) : list event :=
  match dict_get MODELS model with
  | Some config => [EvSleep; EvGet (Config.url config)]
  | None => []
  end.

(** ** Properties of computations *)

(** [quiet P m]: [m] adds only events in [P] to the trace and leaves the
    history and the file alone. *)
Definition quiet (P : event -> Prop) {A : Type} (m : M A) : Prop :=
  forall w,
    (exists delta,
        events (snd (m w)) = events w ++ delta /\ Forall P delta) /\
    prices (snd (m w)) = prices w /\
    new_entries (snd (m w)) = new_entries w /\
    prices_file (snd (m w)) = prices_file w.

(** [logs m r delta]: in every world [m] ends with [r] and adds exactly the
    events [delta], whatever the world is. [only_logs P m] says so with all
    the events in [P]. *)
Definition logs {A : Type} (m : M A) (r : result A) (delta : list event)
  : Prop :=
  forall w, m w = (r, add_events w delta).

Definition only_logs {A : Type} (P : event -> Prop) (m : M A) : Prop :=
  exists r delta, Forall P delta /\ logs m r delta.

(** [trace_blind m]: started with any trace, [m] does what it does started
    with the empty trace, and its events come after the given ones: nothing
    reads the trace. *)
Definition after (evs : list event) {A : Type} (p : result A * world)
  : result A * world :=
  (fst p, set_events (snd p) (evs ++ events (snd p))).

Definition trace_blind {A : Type} (m : M A) : Prop :=
  forall w evs, m (set_events w evs) = after evs (m (set_events w [])).

(** [preserves R ok m]: [m] takes every world to a world related to it by
    [R], and raises only exceptions in [ok]. *)
Definition preserves (R : world -> world -> Prop) {A : Type}
  (ok : exn -> Prop) (m : M A) : Prop :=
  forall w, R w (snd (m w)) /\ (forall e, fst (m w) = Raise e -> ok e).

(** ** Runs *)

(** The observation a step records. *)
Definition recorded (timestamp model : string) (price : PrimFloat.float)
  (config : Config.t) : entry :=
  {| Entry.timestamp := Some timestamp;
     Entry.model := Some model;
     Entry.price := Some price;
     Entry.source := Some (Config.source config);
     Entry.url := Some (Config.url config);
     Entry.image_url := Some (Config.image_url config) |}.

(** The part of an iteration after the new observation is recorded and
    logged (from [old_price = get_latest_price(prices[:-1], model)] on),
    given the list [prices] at that point. *)
Definition detect (py : python) (os : platform) (model : string)
  (price : PrimFloat.float) (prices : list entry) : M unit :=
  let old_price := get_latest_price (removelast prices) model in
  match old_price with
  | Some old =>
      if F64.truthy old then
        threshold <- get_threshold py os model ;;
        is_drop <- lift (check_price_drop price old_price threshold) ;;
        if is_drop then
          logger INFO (MsgDropDetected model old price) ;;
          send_email_notification py os model old price ;;
          send_webhook_notification os model old price ;;
          ret tt
        else ret tt
      else ret tt
  | None => ret tt
  end.

(** The observations a loop over [models] may record, stamped [ts]: at
    most one for each model, in order, each with the source, the URL and the
    image of its model in the registry. *)
Inductive records_of (ts : string) : list string -> list entry -> Prop :=
| records_nil : records_of ts [] []
| records_skip (model : string) (models : list string) (added : list entry) :
    records_of ts models added ->
    records_of ts (model :: models) added
| records_take (model : string) (models : list string) (added : list entry)
    (price : PrimFloat.float) (config : Config.t) :
    dict_get MODELS model = Some config ->
    records_of ts models added ->
    records_of ts (model :: models)
      (recorded ts model price config :: added).

(** From [w] to [w'] a loop over [models], stamped [ts], went through the
    models [done]: the trace grew by events of a run whose sleeps and page
    requests are those planned for [done], the same observations were
    appended to [prices] and to [new_entries], and the file was not
    touched. *)
Definition progress (py : python) (os : platform) (ts : string)
  (done models : list string) (w w' : world) : Prop :=
  exists delta added,
    events w' = events w ++ delta /\
    Forall (run_event py os) delta /\
    filter is_request delta = flat_map plan done /\
    prices w' = prices w ++ added /\
    new_entries w' = new_entries w ++ added /\
    prices_file w' = prices_file w /\
    records_of ts models added.

(** The two ways a run ends early: [int] rejects [SMTP_PORT], or [float]
    rejects the threshold of one of [models]. *)
Definition bad_number (py : python) (os : platform) (models : list string)
  : Prop :=
  int_of_str py (getenv os "SMTP_PORT" "587") = None \/
  exists model,
    In model models /\ threshold_of py os model = Raise ValueError.

(** The world [main] starts its loop in: the trace has the start record
    and what loading logged, [prices] is the loaded history, the clock was
    read once and [new_entries] is empty. *)
Definition loop_start (w : world) (loaded : list entry) (delta : list event)
  : world :=
  set_new_entries
    (tick (set_prices
             (add_events (add_events w [EvLog INFO MsgStarting]) delta)
             loaded))
    [].

(** From [w] to [w'] the same observations, all stamped [ts], were
    appended to [prices] and to [new_entries]. *)
Definition appended (ts : string) (w w' : world) : Prop :=
  exists added,
    prices w' = prices w ++ added /\
    new_entries w' = new_entries w ++ added /\
    Forall (fun e => Entry.timestamp e = Some ts) added.

(** From [w] to [w'] the trace grew, and no new record reports a division
    by zero. *)
Definition no_zero_division (w w' : world) : Prop :=
  exists delta,
    events w' = events w ++ delta /\
    Forall (fun ev => reports_zero_division ev = false) delta.

(** * Builtins on plain literals

    An instance of [python] to run the program on examples: [float] and
    [int] on unsigned decimal literals (every other string is rejected), and
    a [json] codec for histories. *)

Module Literal.

(** The value of a run of digits, most significant first. *)
Fixpoint digits_value (s : string) (acc : Z) : option Z :=
  match s with
  | EmptyString => Some acc
  | String c s' =>
      if isdigit c
      then digits_value s' (10 * acc + Z.of_nat (nat_of_ascii c - 48))%Z
      else None
  end.

(** The text before the first decimal point, and the text after it. *)
Fixpoint split_point (s : string) : string * option string :=
  match s with
  | EmptyString => (EmptyString, None)
  | String c s' =>
      if Ascii.eqb c "."%char then (EmptyString, Some s')
      else let (i, f) := split_point s' in (String c i, f)
  end.

(** [m / 10^k], rounded once to the nearest binary64 value (ties to even). *)
Definition ratio (m : Z) (k : nat) : PrimFloat.float :=
  match m with
  | Zpos p =>
      SF2Prim (SFdiv prec emax (S754_finite false p 0)
                 (S754_finite false (Z.to_pos (10 ^ Z.of_nat k)) 0))
  | _ => 0%float
  end.

(** [float(s)] for digits with at most one decimal point and at least one
    digit. *)
Definition decimal_float (s : string) : option PrimFloat.float :=
  let (i, f) := split_point s in
  let f := match f with Some f => f | None => EmptyString end in
  if (String.length i + String.length f =? 0)%nat then None
  else match digits_value (i ++ f) 0 with
       | Some m => Some (ratio m (String.length f))
       | None => None
       end.

(** [int(s)] for a non-empty run of digits. *)
Definition decimal_int (s : string) : option Z :=
  if str_truthy s then digits_value s 0 else None.

End Literal.

(** ** A JSON codec for histories

    [dump] writes an array of objects with the layout of
    [json.dump(..., indent=n)]; a price is written as the exact decimal
    expansion of its binary64 value, so that reading it back rounds to the
    same value. [load] reads such a text back. *)

Module Json.

Import Literal.

Definition quote : ascii := "034"%char.
Definition backslash : ascii := "092"%char.
Definition newline : string := String "010"%char EmptyString.

Fixpoint spaces (n : nat) : string :=
  match n with
  | O => EmptyString
  | S n' => String " "%char (spaces n')
  end.

Fixpoint zeros (n : nat) : string :=
  match n with
  | O => EmptyString
  | S n' => String "0"%char (zeros n')
  end.

Definition digit_char (d : Z) : ascii := ascii_of_nat (48 + Z.to_nat d).

Fixpoint digits_of (fuel : nat) (n : Z) (acc : string) : string :=
  match fuel with
  | O => acc
  | S fuel' =>
      let acc' := String (digit_char (n mod 10)) acc in
      if (n <? 10)%Z then acc' else digits_of fuel' (n / 10) acc'
  end.

Definition Z_text (n : Z) : string :=
  digits_of (S (Z.to_nat (Z.log2 n))) n EmptyString.

(** [m * 2^e] with the factors of two moved out of a negative exponent. *)
Fixpoint reduce (m : positive) (e : Z) : positive * Z :=
  match m with
  | xO m' => if (e <? 0)%Z then reduce m' (e + 1) else (m, e)
  | _ => (m, e)
  end.

(** The decimal expansion of [m * 2^e]. *)
Definition expansion (m : positive) (e : Z) : string :=
  let (m, e) := reduce m e in
  if (0 <=? e)%Z then (Z_text (Zpos m * 2 ^ e) ++ ".0")%string
  else
    let k := Z.to_nat (- e) in
    let digits := Z_text (Zpos m * 5 ^ (- e)) in
    let padded := (zeros (S k - String.length digits) ++ digits)%string in
    let n := (String.length padded - k)%nat in
    (substring 0 n padded ++ "." ++ substring n k padded)%string.

Definition float_text (x : PrimFloat.float) : string :=
  match Prim2SF x with
  | S754_zero s => if s then "-0.0" else "0.0"
  | S754_infinity s => if s then "-Infinity" else "Infinity"
  | S754_nan => "NaN"
  | S754_finite s m e =>
      ((if s then "-" else EmptyString) ++ expansion m e)%string
  end.

Fixpoint escape (s : string) : string :=
  match s with
  | EmptyString => EmptyString
  | String c s' =>
      if Ascii.eqb c quote || Ascii.eqb c backslash
      then String backslash (String c (escape s'))
      else String c (escape s')
  end.

Definition str_text (s : string) : string :=
  String quote (escape s ++ String quote EmptyString).

Definition member (key : string) (value : option string) : list string :=
  match value with
  | Some v => [ (str_text key ++ ": " ++ v)%string ]
  | None => []
  end.

Definition members (e : entry) : list string :=
  member "timestamp" (option_map str_text (Entry.timestamp e)) ++
  member "model" (option_map str_text (Entry.model e)) ++
  member "price" (option_map float_text (Entry.price e)) ++
  member "source" (option_map str_text (Entry.source e)) ++
  member "url" (option_map str_text (Entry.url e)) ++
  member "image_url" (option_map str_text (Entry.image_url e)).

(** Items one per line at depth [pad], then the closing bracket at depth
    [close]. *)
Fixpoint lines (pad close : nat) (items : list string) (closing : string)
  : string :=
  match items with
  | [] => (newline ++ spaces close ++ closing)%string
  | [item] =>
      (newline ++ spaces pad ++ item ++ newline ++ spaces close ++ closing)%string
  | item :: rest =>
      (newline ++ spaces pad ++ item ++ "," ++ lines pad close rest closing)%string
  end.

Definition block (opening closing : string) (pad close : nat)
  (items : list string) : string :=
  match items with
  | [] => (opening ++ closing)%string
  | _ :: _ => (opening ++ lines pad close items closing)%string
  end.

Definition dump (data : list entry) (indent : nat) : string :=
  block "[" "]" indent 0
    (map (fun e => block "{" "}" (2 * indent) indent (members e)) data).

(** Reading. Every reader returns what it read and the rest of the text. *)

Definition is_ws (c : ascii) : bool :=
  Ascii.eqb c " "%char || Ascii.eqb c "010"%char ||
  Ascii.eqb c "013"%char || Ascii.eqb c "009"%char.

Fixpoint skip_ws (s : string) : string :=
  match s with
  | String c s' => if is_ws c then skip_ws s' else s
  | EmptyString => s
  end.

Definition expect (c : ascii) (s : string) : option string :=
  match skip_ws s with
  | String d s' => if Ascii.eqb d c then Some s' else None
  | EmptyString => None
  end.

(** The body of a string literal, after its opening quote. *)
Fixpoint read_str (s : string) : option (string * string) :=
  match s with
  | EmptyString => None
  | String c s' =>
      if Ascii.eqb c quote then Some (EmptyString, s')
      else if Ascii.eqb c backslash then
        match s' with
        | String d s'' =>
            if Ascii.eqb d quote || Ascii.eqb d backslash then
              match read_str s'' with
              | Some (v, r) => Some (String d v, r)
              | None => None
              end
            else None
        | EmptyString => None
        end
      else
        match read_str s' with
        | Some (v, r) => Some (String c v, r)
        | None => None
        end
  end.

Definition read_string (s : string) : option (string * string) :=
  match expect quote s with
  | Some s' => read_str s'
  | None => None
  end.

Fixpoint number_run (s : string) : string * string :=
  match s with
  | String c s' =>
      if isdigit c || Ascii.eqb c "."%char
      then let (n, r) := number_run s' in (String c n, r)
      else (EmptyString, s)
  | EmptyString => (EmptyString, EmptyString)
  end.

Definition read_number (s : string) : option (PrimFloat.float * string) :=
  match skip_ws s with
  | String c s' =>
      if Ascii.eqb c "-"%char then
        let (n, r) := number_run s' in
        match decimal_float n with
        | Some x => Some ((- x)%float, r)
        | None => None
        end
      else
        let (n, r) := number_run (String c s') in
        match decimal_float n with
        | Some x => Some (x, r)
        | None => None
        end
  | EmptyString => None
  end.

Definition empty_entry : entry :=
  {| Entry.timestamp := None; Entry.model := None; Entry.price := None;
     Entry.source := None; Entry.url := None; Entry.image_url := None |}.

Definition set_text (key value : string) (e : entry) : option entry :=
  let (t, m, p, s, u, i) := e in
  if String.eqb key "timestamp" then Some (Entry.Build (Some value) m p s u i)
  else if String.eqb key "model" then Some (Entry.Build t (Some value) p s u i)
  else if String.eqb key "source" then Some (Entry.Build t m p (Some value) u i)
  else if String.eqb key "url" then Some (Entry.Build t m p s (Some value) i)
  else if String.eqb key "image_url" then Some (Entry.Build t m p s u (Some value))
  else None.

Definition read_member (key : string) (e : entry) (s : string)
  : option (entry * string) :=
  if String.eqb key "price" then
    match read_number s with
    | Some (x, r) =>
        let (t, m, _, so, u, i) := e in
        Some (Entry.Build t m (Some x) so u i, r)
    | None => None
    end
  else
    match read_string s with
    | Some (v, r) =>
        match set_text key v e with
        | Some e' => Some (e', r)
        | None => None
        end
    | None => None
    end.

(** The members of an object, after its opening brace or a comma. *)
Fixpoint read_members (fuel : nat) (e : entry) (s : string)
  : option (entry * string) :=
  match fuel with
  | O => None
  | S fuel' =>
      match read_string s with
      | Some (key, r) =>
          match expect ":"%char r with
          | Some r' =>
              match read_member key e r' with
              | Some (e', r'') =>
                  match skip_ws r'' with
                  | String c t =>
                      if Ascii.eqb c ","%char then read_members fuel' e' t
                      else if Ascii.eqb c "}"%char then Some (e', t)
                      else None
                  | EmptyString => None
                  end
              | None => None
              end
          | None => None
          end
      | None => None
      end
  end.

Definition read_object (s : string) : option (entry * string) :=
  match expect "{"%char s with
  | Some r =>
      match expect "}"%char r with
      | Some r' => Some (empty_entry, r')
      | None => read_members (String.length r) empty_entry r
      end
  | None => None
  end.

(** The items of an array, after its opening bracket or a comma. *)
Fixpoint read_items (fuel : nat) (s : string) : option (list entry * string) :=
  match fuel with
  | O => None
  | S fuel' =>
      match read_object s with
      | Some (e, r) =>
          match skip_ws r with
          | String c t =>
              if Ascii.eqb c ","%char then
                match read_items fuel' t with
                | Some (l, r') => Some (e :: l, r')
                | None => None
                end
              else if Ascii.eqb c "]"%char then Some ([e], t)
              else None
          | EmptyString => None
          end
      | None => None
      end
  end.

Definition load (s : string) : option (list entry) :=
  match expect "["%char s with
  | Some r =>
      let items :=
        match expect "]"%char r with
        | Some r' => Some ([], r')
        | None => read_items (String.length r) r
        end in
      match items with
      | Some (l, rest) =>
          match skip_ws rest with
          | EmptyString => Some l
          | String _ _ => None
          end
      | None => None
      end
  | None => None
  end.

End Json.

(** The builtins on plain literals. *)
Definition literal_python : python :=
  {| float_of_str := Literal.decimal_float;
     int_of_str := Literal.decimal_int;
     json_dump := Json.dump;
     json_load := Json.load |}.

(** ** Sample data *)

Definition observation (timestamp model : string) (price : PrimFloat.float)
  : entry :=
  {| Entry.timestamp := Some timestamp;
     Entry.model := Some model;
     Entry.price := Some price;
     Entry.source := Some "reebelo";
     Entry.url := Some "https://www.reebelo.com/search?q=iphone+16+pro+max+256gb";
     Entry.image_url := Some EmptyString |}.

Definition sample_history : list entry :=
  [ observation "2024-05-01T09:00:00.000001" "iPhone 16 Pro Max" 1000;
    observation "2024-05-01T09:00:00.000001" "iPhone 15 Pro Max" 899.5;
    observation "2024-05-02T09:00:00.000001" "iPhone 16 Pro Max" 940;
    observation "2024-05-02T09:00:00.000001" "iPhone 16 Pro Max" 930.25 ].

(** A page given by the texts each selector matches. *)
Definition page_of (matches : list (string * list string)) : soup :=
  fun selector =>
    match dict_get matches selector with
    | Some texts => texts
    | None => []
    end.



(** A marketplace page: listings, an accessory, an unparsable text and a
    value out of range. *)
Definition marketplace_page : soup :=
  page_of [ ("[class*=" ++ dquote ++ "price" ++ dquote ++ "]",
             ["$1,299.00"; "$89.99"; "From $949.50"; "v1.2.3"; "Sold out"])%string;
            (".product-price", ["$949.50"; "$12,000"]) ].

(** A platform that serves [page] at every URL, with nothing configured. *)
Definition serving (page : soup) : platform :=
  {| environ := fun _ => None;
     requests_get := fun _ => Some {| status_code := 200; content := page |};
     requests_post := fun _ _ => None;
     smtp_session := fun _ _ _ _ _ => None;
     datetime_now := fun n => ("2024-05-03T09:00:0" ++ Json.Z_text (Z.of_nat n))%string;
     disk_write := WriteOk;
     disk_read_fails := false |}.

Definition fresh_world : world :=
  {| events := []; ticks := 0; prices_file := None; prices := [];
     new_entries := [] |}.

Definition apple_url : string :=
  "https://www.apple.com/shop/product/refurbished/iphone/iphone-15-pro-max".

Definition reebelo_url : string :=
  "https://www.reebelo.com/search?q=iphone+16+pro+max+256gb".

Definition reebelo17_url : string :=
  "https://www.reebelo.com/search?q=iphone+17+pro+max+256gb".

(** A platform given by the pages it serves (a request for any other URL
    fails) and its environment variables; the webhook endpoint and the mail
    server accept everything. *)
Definition site (pages : list (string * soup)) (vars : list (string * string))
  : platform :=
  {| environ := dict_get vars;
     requests_get := fun url =>
       match dict_get pages url with
       | Some page => Some {| status_code := 200; content := page |}
       | None => None
       end;
     requests_post := fun _ _ =>
       Some {| status_code := 200; content := page_of [] |};
     smtp_session := fun _ _ _ _ _ => None;
     datetime_now := fun n =>
       ("2024-05-03T09:00:0" ++ Json.Z_text (Z.of_nat n))%string;
     disk_write := WriteOk;
     disk_read_fails := false |}.

(** The marketplace lists the iPhone 16 at 940; the storefront is down and
    the iPhone 17 page has no price. *)
Definition shop_pages : list (string * soup) :=
  [ (reebelo_url, page_of [(".product-price", ["$940.00"])]);
    (reebelo17_url, page_of []) ].

Definition shop : platform :=
  site shop_pages [("WEBHOOK_URL", "https://hooks.example.org/drop")].

Definition shop_bad_port : platform :=
  site shop_pages [("WEBHOOK_URL", "https://hooks.example.org/drop");
                   ("SMTP_PORT", "abc")].

(** The shop with the email sink configured and no webhook. *)
Definition shop_mail : platform :=
  site shop_pages [("SMTP_HOST", "smtp.example.org");
                   ("SMTP_USER", "monitor@example.org");
                   ("SMTP_PASSWORD", "secret");
                   ("SMTP_TO", "owner@example.org")].

Definition shop_bad_threshold : platform :=
  site shop_pages [("WEBHOOK_URL", "https://hooks.example.org/drop");
                   ("PRICE_THRESHOLD_16", "five")].

(** A world whose file holds one observation of the iPhone 16 at [price]. *)
Definition stored (price : PrimFloat.float) : world :=
  {| events := []; ticks := 0;
     prices_file :=
       Some (Json.dump
               [observation "2024-05-02T09:00:00" "iPhone 16 Pro Max" price] 2);
     prices := []; new_entries := [] |}.

(** The history a run on [stored price] loads. *)
Definition loaded_world (price : PrimFloat.float) : world :=
  set_prices fresh_world
    [observation "2024-05-02T09:00:00" "iPhone 16 Pro Max" price].

(** The deliveries recorded in a trace. *)
Definition notifications (w : world) : list event :=
  filter is_notification (events w).

(** * Properties *)

(** *** Binary64 facts: the order, through its specification *)

Module F64Facts.

Import F64.

Local Open Scope float_scope.

Lemma zero_spec : Prim2SF 0 = S754_zero false.
Proof. reflexivity. Qed.

Lemma SFltb_zero_not_eq (s : spec_float) :
  SFltb (S754_zero false) s = true -> SFeqb s (S754_zero false) = false.
Proof.
  unfold SFltb, SFeqb.
  destruct s as [[] | [] | | [] m e]; simpl; intros; reflexivity || discriminate.
Qed.

Lemma pos_not_zero (x : PrimFloat.float) : (0 <? x) = true -> (x =? 0) = false.
Proof.
  rewrite ltb_spec, eqb_spec, zero_spec. apply SFltb_zero_not_eq.
Qed.

Lemma truthy_not_zero (x : PrimFloat.float) : truthy x = true -> (x =? 0) = false.
Proof. unfold truthy. now destruct (x =? 0). Qed.










Lemma SFleb_trans (a b c : spec_float) :
  SFleb a b = true -> SFleb b c = true -> SFleb a c = true.
Proof.
  unfold SFleb.
  destruct a as [[]|[]| |[] ma ea], b as [[]|[]| |[] mb eb],
    c as [[]|[]| |[] mc ec]; simpl; try discriminate; try reflexivity.
  all: change (PosDef.Pos.compare_cont Eq ?x ?y) with (Pos.compare x y).
  all: destruct (Z.compare_spec ea eb), (Z.compare_spec eb ec),
    (Z.compare_spec ea ec); try lia; try discriminate; try reflexivity.
  all: destruct (Pos.compare_spec ma mb), (Pos.compare_spec mb mc),
    (Pos.compare_spec ma mc); simpl; try lia; try discriminate;
    try reflexivity.
Qed.

Lemma leb_trans_float (x y z : PrimFloat.float) :
  (x <=? y) = true -> (y <=? z) = true -> (x <=? z) = true.
Proof. rewrite !leb_spec. apply SFleb_trans. Qed.

(** Not a number: the one value that differs from itself. *)

Lemma SFcompare_refl (a : spec_float) :
  a <> S754_nan -> SFcompare a a = Some Eq.
Proof.
  destruct a as [[]|[]| |[] m e]; simpl; try reflexivity; try congruence;
    intros _.
  all: change (PosDef.Pos.compare_cont Eq ?x ?y) with (Pos.compare x y).
  all: rewrite Z.compare_refl, Pos.compare_refl; reflexivity.
Qed.

Lemma is_nan_spec (x : PrimFloat.float) :
  is_nan x = true -> Prim2SF x = S754_nan.
Proof.
  unfold is_nan. rewrite eqb_spec. unfold SFeqb.
  destruct (Prim2SF x) as [s|s| |s m e] eqn:E; try reflexivity;
    rewrite SFcompare_refl by discriminate; discriminate.
Qed.

Lemma leb_nan_l (t x : PrimFloat.float) :
  is_nan t = true -> (t <=? x) = false.
Proof. intros H. rewrite leb_spec, (is_nan_spec _ H). reflexivity. Qed.

Lemma leb_nan_r (t x : PrimFloat.float) :
  is_nan x = true -> (t <=? x) = false.
Proof.
  intros H. rewrite leb_spec, (is_nan_spec _ H). unfold SFleb.
  destruct (Prim2SF t); reflexivity.
Qed.

Lemma sub_nan_r (x y : PrimFloat.float) :
  is_nan y = true -> is_nan (x - y) = true.
Proof.
  intros H. unfold is_nan. rewrite eqb_spec, sub_spec, (is_nan_spec _ H).
  unfold SF64sub, SFsub. destruct (Prim2SF x) as [[]|[]| |[] m e]; reflexivity.
Qed.

Lemma div_nan_l (x y : PrimFloat.float) :
  is_nan x = true -> is_nan (x / y) = true.
Proof.
  intros H. unfold is_nan. rewrite eqb_spec, div_spec, (is_nan_spec _ H).
  reflexivity.
Qed.

Lemma mul_nan_l (x y : PrimFloat.float) :
  is_nan x = true -> is_nan (x * y) = true.
Proof.
  intros H. unfold is_nan. rewrite eqb_spec, mul_spec, (is_nan_spec _ H).
  reflexivity.
Qed.

End F64Facts.



(** ** Drop detection *)

Section DropDetector.

Local Open Scope float_scope.

(** Claim C1: with a positive prior price, [check_price_drop] answers
    [True] exactly when [(old - new) / old * 100 >= threshold]; with no
    prior price ([None]) it answers [False]. *)
Theorem check_price_drop_formula :
  (forall new_price old_price t : PrimFloat.float,
      (0 <? old_price) = true ->
      exists b : bool,
        check_price_drop new_price (Some old_price) t = Ok b /\
        (b = true <->
         (t <=? (old_price - new_price) / old_price * 100) = true)) /\
  (forall new_price t : PrimFloat.float,
      check_price_drop new_price None t = Ok false).
Proof.
  split.
  - intros new_price old_price t Hpos.
    unfold check_price_drop, truediv.
    rewrite (F64Facts.pos_not_zero _ Hpos).
    eexists. split; [reflexivity | tauto].
  - reflexivity.
Qed.

(** Scenarios 2 and 3 of the specification: 1000 to 940 is a drop at 5
    percent, 1000 to 970 is not. *)
Lemma check_price_drop_formula_witness :
  check_price_drop 940 (Some 1000) 5 = Ok true /\
  check_price_drop 970 (Some 1000) 5 = Ok false.
Proof.
  destruct check_price_drop_formula as [H _].
  split.
  - destruct (H 940 1000 5 eq_refl) as [b [-> Hb]].
    destruct b; [reflexivity|].
    assert (false = true) by (apply Hb; reflexivity). discriminate.
  - destruct (H 970 1000 5 eq_refl) as [b [-> Hb]].
    destruct b; [|reflexivity].
    assert ((5 <=? (1000 - 970) / 1000 * 100) = true) by (apply Hb; reflexivity).
    discriminate.
Defined.

End DropDetector.

(** ** Lexicographic order on timestamps *)

Module StrOrd.

Lemma ascii_compare_refl (c : ascii) : Ascii.compare c c = Eq.
Proof. unfold Ascii.compare. apply N.compare_refl. Qed.

Lemma ascii_lt_trans (a b c : ascii) :
  Ascii.compare a b = Lt -> Ascii.compare b c = Lt -> Ascii.compare a c = Lt.
Proof.
  unfold Ascii.compare. rewrite !N.compare_lt_iff. lia.
Qed.

Lemma compare_refl (s : string) : String.compare s s = Eq.
Proof.
  induction s as [|c s IH]; simpl; [reflexivity|].
  now rewrite ascii_compare_refl.
Qed.

Lemma lt_trans (a b c : string) :
  String.compare a b = Lt -> String.compare b c = Lt -> String.compare a c = Lt.
Proof.
  revert b c.
  induction a as [|x a IH]; intros [|y b] [|z c]; simpl; try discriminate; auto.
  destruct (Ascii.compare x y) eqn:Exy; try discriminate;
    destruct (Ascii.compare y z) eqn:Eyz; try discriminate; intros Hab Hbc.
  - apply Ascii.compare_eq_iff in Exy, Eyz. subst.
    rewrite ascii_compare_refl. eauto.
  - apply Ascii.compare_eq_iff in Exy. subst. now rewrite Eyz.
  - apply Ascii.compare_eq_iff in Eyz. subst. now rewrite Exy.
  - now rewrite (ascii_lt_trans _ _ _ Exy Eyz).
Qed.

Lemma ltb_leb (a b : string) : String.ltb a b = true -> String.leb a b = true.
Proof.
  unfold String.ltb, String.leb. now destruct (String.compare a b).
Qed.

Lemma not_ltb_leb (a b : string) :
  String.ltb a b = false -> String.leb b a = true.
Proof.
  unfold String.ltb, String.leb. rewrite (String.compare_antisym a b).
  now destruct (String.compare b a).
Qed.

Lemma leb_refl (a : string) : String.leb a a = true.
Proof. unfold String.leb. now rewrite compare_refl. Qed.

Lemma leb_trans (a b c : string) :
  String.leb a b = true -> String.leb b c = true -> String.leb a c = true.
Proof.
  unfold String.leb.
  destruct (String.compare a b) eqn:Eab; try discriminate;
    destruct (String.compare b c) eqn:Ebc; try discriminate; intros _ _.
  - apply String.compare_eq_iff in Eab, Ebc. subst. now rewrite compare_refl.
  - apply String.compare_eq_iff in Eab. subst. now rewrite Ebc.
  - apply String.compare_eq_iff in Ebc. subst. now rewrite Eab.
  - now rewrite (lt_trans _ _ _ Eab Ebc).
Qed.

Lemma ltb_not_leb (a b : string) :
  String.ltb a b = true -> String.leb b a = false.
Proof.
  unfold String.ltb, String.leb. rewrite (String.compare_antisym a b).
  now destruct (String.compare b a).
Qed.

End StrOrd.

(** ** The latest prior price *)

Section LatestPrice.

Context {A : Type} (key : A -> string).

(** The head of the sorted list is the first element of the input whose
    key is maximal. *)
Lemma sort_reverse_head (x : A) (l : list A) :
  exists pre latest post rest,
    x :: l = pre ++ latest :: post /\
    sort_reverse key (x :: l) = latest :: rest /\
    (forall p, In p (x :: l) -> String.leb (key p) (key latest) = true) /\
    (forall p, In p pre -> String.ltb (key p) (key latest) = true).
Proof.
  revert x. induction l as [|y l IH]; intros x.
  - exists [], x, [], []. simpl. repeat split; try tauto.
    intros p [<-|[]]. apply StrOrd.leb_refl.
  - destruct (IH y) as (pre & latest & post & rest & Hsplit & Hsort & Hmax & Hpre).
    change (sort_reverse key (x :: y :: l))
      with (insert_reverse key x (sort_reverse key (y :: l))).
    rewrite Hsort. simpl insert_reverse.
    destruct (String.ltb (key x) (key latest)) eqn:Hlt.
    + exists (x :: pre), latest, post, (insert_reverse key x rest).
      repeat split.
      * simpl. now rewrite Hsplit.
      * intros p [<-|Hin]; [now apply StrOrd.ltb_leb | now apply Hmax].
      * intros p [<-|Hin]; [assumption | now apply Hpre].
    + exists [], x, (y :: l), (latest :: rest).
      repeat split.
      * intros p [<-|Hin]; [apply StrOrd.leb_refl|].
        apply StrOrd.leb_trans with (key latest); [now apply Hmax|].
        now apply StrOrd.not_ltb_leb.
      * intros p [].
Qed.

End LatestPrice.

Lemma filter_split {A : Type} (f : A -> bool) (l l1 l2 : list A) (x : A) :
  filter f l = l1 ++ x :: l2 ->
  exists pre post, l = pre ++ x :: post /\ filter f pre = l1 /\ filter f post = l2.
Proof.
  revert l1. induction l as [|a l IH]; intros l1 H; simpl in H.
  - destruct l1; discriminate.
  - destruct (f a) eqn:Hfa.
    + destruct l1 as [|b l1]; simpl in H; injection H as -> H.
      * exists [], l. repeat split; assumption.
      * destruct (IH _ H) as (pre & post & -> & <- & <-).
        exists (b :: pre), post. simpl. rewrite Hfa. repeat split.
    + destruct (IH _ H) as (pre & post & -> & <- & <-).
      exists (a :: pre), post. simpl. rewrite Hfa. repeat split.
Qed.


(** ** The marketplace extractor *)

Section Marketplace.

Variable py : python.
Local Open Scope float_scope.





End Marketplace.

Arguments reebelo_scan : simpl never.
Arguments apple_scan : simpl never.

(** Unfolding of the monad's plumbing. *)
Ltac run :=
  unfold try_except, try_except_all, bind, ret, raise, lift, logger, emit,
    get, raise_for_status; simpl.


(** ** The storefront extractor *)

Section Storefront.

Variable py : python.




End Storefront.


(** ** Examples and instances of the extraction theorems *)

Example json_sample_round_trip :
  Json.load (Json.dump sample_history 2) = Some sample_history.
Proof. vm_compute. reflexivity. Qed.

Example fetch_reebelo_price_sample :
  fst (fetch_reebelo_price literal_python (serving marketplace_page)
         reebelo_url fresh_world) = Ok (Some 949.5%float).
Proof. vm_compute. reflexivity. Qed.





(** ** Extraction never raises *)

Lemma apple_scan_raises (py : python) (page : soup) (selectors : list string)
  (e : exn) :
  apple_scan py page selectors = Raise e -> e = ValueError.
Proof.
  induction selectors as [|s rest IH]; [discriminate|].
  unfold apple_scan; fold (apple_scan py).
  destruct (select_one page s) as [t|]; [|exact IH].
  destruct (str_truthy _); [|exact IH].
  unfold float. destruct (float_of_str py _);
    destruct (2 <? _)%nat; congruence.
Qed.

(** A digit string that [float] rejects is reported as not found. *)
Lemma parse_error_is_not_found (py : python) (os : platform) (url : string)
  (w : world) (r : response) (e : exn) :
  requests_get os url = Some r ->
  apple_scan py (content r) apple_price_selectors = Raise e ->
  fst (fetch_apple_refurbished_price py os url w) = Ok None.
Proof.
  intros Hget Hscan.
  unfold fetch_apple_refurbished_price. run. rewrite Hget. simpl.
  destruct ((400 <=? status_code r)%Z && (status_code r <? 600)%Z); simpl;
    [reflexivity|].
  rewrite Hscan. apply apple_scan_raises in Hscan. subst e. reflexivity.
Qed.

Lemma fetch_apple_returns (py : python) (os : platform) (url : string)
  (w : world) :
  exists found w', fetch_apple_refurbished_price py os url w = (Ok found, w').
Proof.
  unfold fetch_apple_refurbished_price. run.
  destruct (requests_get os url) as [r|]; simpl; [|eauto].
  destruct ((400 <=? status_code r)%Z && (status_code r <? 600)%Z); simpl;
    [eauto|].
  destruct (apple_scan py (content r) apple_price_selectors)
    as [[p|]|e] eqn:Hscan; simpl; eauto.
  apply apple_scan_raises in Hscan. subst e. simpl. eauto.
Qed.

Lemma fetch_reebelo_returns (py : python) (os : platform) (url : string)
  (w : world) :
  exists found w', fetch_reebelo_price py os url w = (Ok found, w').
Proof.
  unfold fetch_reebelo_price. run.
  destruct (requests_get os url) as [r|]; simpl; [|eauto].
  destruct ((400 <=? status_code r)%Z && (status_code r <? 600)%Z); simpl;
    [eauto|].
  destruct (reebelo_scan py (content r) reebelo_price_selectors []); simpl;
    eauto.
Qed.


(** ** Effects of the program on the world *)

Lemma add_events_nil (w : world) : add_events w [] = w.
Proof. destruct w. unfold add_events. simpl. now rewrite app_nil_r. Qed.

Lemma add_events_app (w : world) (d1 d2 : list event) :
  add_events (add_events w d1) d2 = add_events w (d1 ++ d2).
Proof. unfold add_events. simpl. now rewrite app_assoc. Qed.

Section OnlyLogs.

Context {A B : Type}.
Variable P : event -> Prop.

Lemma only_logs_ret (a : A) : only_logs P (ret a).
Proof.
  exists (Ok a), []. split; [constructor|].
  intros w. unfold ret. now rewrite add_events_nil.
Qed.

Lemma only_logs_raise (e : exn) : only_logs P (@raise A e).
Proof.
  exists (Raise e), []. split; [constructor|].
  intros w. unfold raise. now rewrite add_events_nil.
Qed.

Lemma only_logs_lift (r : result A) : only_logs P (lift r).
Proof.
  exists r, []. split; [constructor|].
  intros w. unfold lift. now rewrite add_events_nil.
Qed.

Lemma only_logs_bind (m : M A) (k : A -> M B) :
  only_logs P m -> (forall a, only_logs P (k a)) -> only_logs P (bind m k).
Proof.
  intros (r & d & Hd & Hm) Hk. destruct r as [a|e].
  - destruct (Hk a) as (r' & d' & Hd' & Hka). exists r', (d ++ d').
    split; [now apply Forall_app|].
    intros w. unfold bind. rewrite Hm, Hka. now rewrite add_events_app.
  - exists (Raise e), d. split; [assumption|].
    intros w. unfold bind. now rewrite Hm.
Qed.

Lemma only_logs_dispatch (clauses : list (exn * (exn -> M A))) (e : exn) :
  Forall (fun c => forall e, is_a e (fst c) = true -> only_logs P (snd c e))
         clauses ->
  only_logs P (dispatch clauses e).
Proof.
  induction 1 as [|[c h] rest Hh _ IH]; simpl.
  - apply only_logs_raise.
  - destruct (is_a e c) eqn:Hc; [now apply Hh | exact IH].
Qed.

Lemma only_logs_try_except (body : M A) (clauses : list (exn * (exn -> M A))) :
  only_logs P body ->
  Forall (fun c => forall e, is_a e (fst c) = true -> only_logs P (snd c e))
         clauses ->
  only_logs P (try_except body clauses).
Proof.
  intros (r & d & Hd & Hm) Hc. destruct r as [a|e].
  - exists (Ok a), d. split; [assumption|].
    intros w. unfold try_except. now rewrite Hm.
  - destruct (only_logs_dispatch clauses e Hc) as (r' & d' & Hd' & Hdis).
    exists r', (d ++ d'). split; [now apply Forall_app|].
    intros w. unfold try_except. rewrite Hm, Hdis. now rewrite add_events_app.
Qed.

Lemma only_logs_try_except_all (body : M A) (h : exn -> M A) :
  only_logs P body -> (forall e, only_logs P (h e)) ->
  only_logs P (try_except_all body h).
Proof.
  intros (r & d & Hd & Hm) Hh. destruct r as [a|e].
  - exists (Ok a), d. split; [assumption|].
    intros w. unfold try_except_all. now rewrite Hm.
  - destruct (Hh e) as (r' & d' & Hd' & Hhe).
    exists r', (d ++ d'). split; [now apply Forall_app|].
    intros w. unfold try_except_all. rewrite Hm, Hhe.
    now rewrite add_events_app.
Qed.

End OnlyLogs.

Lemma only_logs_emit (P : event -> Prop) (ev : event) :
  P ev -> only_logs P (emit ev).
Proof.
  intros HP. exists (Ok tt), [ev]. split; [now repeat constructor|].
  intros w. reflexivity.
Qed.

Ltac fetch_event_solve :=
  match goal with
  | H : is_a ?e _ = true |- _ =>
      destruct e; try discriminate H; split; reflexivity
  | |- _ => split; reflexivity
  end.

Ltac only_logs_step :=
  match goal with
  | |- only_logs _ (ret _) => apply only_logs_ret
  | |- only_logs _ (raise _) => apply only_logs_raise
  | |- only_logs _ (lift _) => apply only_logs_lift
  | |- only_logs _ (emit _) => apply only_logs_emit; fetch_event_solve
  | |- only_logs _ (logger _ _) => apply only_logs_emit; fetch_event_solve
  | |- only_logs _ (bind _ _) => apply only_logs_bind; [|intros ?]
  | |- only_logs _ (try_except _ _) =>
      apply only_logs_try_except; [|repeat constructor; intros ? ?; simpl in *]
  | |- only_logs _ (match ?x with _ => _ end) => destruct x
  | |- only_logs _ (if ?b then _ else _) => destruct b
  end.

Section FetchEffects.

Variable py : python.
Variable os : platform.

Lemma only_logs_get (url : string) : only_logs fetch_event (get os url).
Proof. unfold get. repeat only_logs_step. Qed.

Lemma only_logs_raise_for_status (P : event -> Prop) (r : response) :
  only_logs P (raise_for_status r).
Proof. unfold raise_for_status. repeat only_logs_step. Qed.

Lemma only_logs_fetch_apple (url : string) :
  only_logs fetch_event (fetch_apple_refurbished_price py os url).
Proof.
  unfold fetch_apple_refurbished_price.
  repeat (only_logs_step || apply only_logs_get
          || apply only_logs_raise_for_status).
Qed.

Lemma only_logs_fetch_reebelo (url : string) :
  only_logs fetch_event (fetch_reebelo_price py os url).
Proof.
  unfold fetch_reebelo_price.
  repeat (only_logs_step || apply only_logs_get
          || apply only_logs_raise_for_status).
Qed.

Lemma only_logs_fetch_price (model : string) :
  only_logs fetch_event (fetch_price py os model).
Proof.
  unfold fetch_price, sleep.
  repeat (only_logs_step || apply only_logs_fetch_apple
          || apply only_logs_fetch_reebelo).
Qed.


(** A fetch does not raise. *)
Lemma fetch_price_returns (model : string) :
  exists found delta,
    Forall fetch_event delta /\
    logs (fetch_price py os model) (Ok found) delta.
Proof.
  destruct (only_logs_fetch_price model) as (r & delta & Hd & Hlogs).
  destruct r as [found|e]; [eauto|].
  exfalso. specialize (Hlogs fresh_world).
  unfold fetch_price in Hlogs.
  destruct (dict_get MODELS model) as [config|]; [|discriminate].
  revert Hlogs. run.
  destruct (String.eqb (Config.source config) "apple_refurbished").
  - destruct (fetch_apple_returns py os (Config.url config)
                (add_events (add_events fresh_world
                   [EvLog INFO (MsgFetching model (Config.source config))])
                   [EvSleep])) as (f & w' & H).
    unfold add_events in H. simpl in H. unfold sleep. run. rewrite H.
    discriminate.
  - destruct (String.eqb (Config.source config) "reebelo"); [|discriminate].
    destruct (fetch_reebelo_returns py os (Config.url config)
                (add_events (add_events fresh_world
                   [EvLog INFO (MsgFetching model (Config.source config))])
                   [EvSleep])) as (f & w' & H).
    unfold add_events in H. simpl in H. unfold sleep. run. rewrite H.
    discriminate.
Qed.

End FetchEffects.

(** *** Nothing reads the trace *)




Section TraceBlind.

Context {A B : Type}.








End TraceBlind.

(** A step that reads and writes the world but not its trace. *)
Lemma trace_blind_state {A : Type} (f : world -> result A * world) :
  (forall w evs, f (set_events w evs)
                 = (fst (f (set_events w [])),
                    set_events (snd (f (set_events w []))) evs)) ->
  (forall w, events (snd (f (set_events w []))) = []) ->
  trace_blind f.
Proof.
  intros Hf Hev w evs. rewrite Hf. unfold after. simpl.
  rewrite Hev. now rewrite app_nil_r.
Qed.



Section RunEffects.

Variable py : python.
Variable os : platform.










End RunEffects.

(** ** The orchestrator skips a model whose fetch fails *)


(** *** Invariants of a run *)

Section Preserves.

Variable R : world -> world -> Prop.
Hypothesis R_refl : forall w, R w w.
Hypothesis R_trans : forall a b c, R a b -> R b c -> R a c.

Context {A B : Type}.

Lemma preserves_ret (ok : exn -> Prop) (a : A) : preserves R ok (ret a).
Proof. intros w. split; [apply R_refl | discriminate]. Qed.

Lemma preserves_raise (ok : exn -> Prop) (e : exn) :
  ok e -> preserves R ok (@raise A e).
Proof.
  intros He w. split; [apply R_refl|]. simpl. intros e' [= <-]. exact He.
Qed.

Lemma preserves_lift (ok : exn -> Prop) (r : result A) :
  (forall e, r = Raise e -> ok e) -> preserves R ok (lift r).
Proof. intros Hr w. split; [apply R_refl | exact Hr]. Qed.

Lemma preserves_bind (ok : exn -> Prop) (m : M A) (k : A -> M B) :
  preserves R ok m -> (forall a, preserves R ok (k a)) ->
  preserves R ok (bind m k).
Proof.
  intros Hm Hk w. unfold bind. destruct (Hm w) as [HR Hok].
  destruct (m w) as [[a|e] w1]; simpl in *.
  - destruct (Hk a w1) as [HR' Hok']. split; [|exact Hok'].
    now apply R_trans with w1.
  - split; [exact HR|]. intros e' [= <-]. now apply Hok.
Qed.

Lemma preserves_try_except_all (okb ok : exn -> Prop) (body : M A)
  (h : exn -> M A) :
  preserves R okb body -> (forall e, okb e -> preserves R ok (h e)) ->
  preserves R ok (try_except_all body h).
Proof.
  intros Hm Hh w. unfold try_except_all. destruct (Hm w) as [HR Hok].
  destruct (body w) as [[a|e] w1]; simpl in *.
  - split; [exact HR | discriminate].
  - destruct (Hh e (Hok e eq_refl) w1) as [HR' Hok']. split; [|exact Hok'].
    now apply R_trans with w1.
Qed.

Lemma preserves_weaken (ok ok' : exn -> Prop) (m : M A) :
  (forall e, ok e -> ok' e) -> preserves R ok m -> preserves R ok' m.
Proof.
  intros Himp Hm w. destruct (Hm w) as [HR Hok]. split; [exact HR|].
  intros e He. apply Himp, Hok, He.
Qed.

End Preserves.

Lemma check_price_drop_truthy (new_price old_price t : PrimFloat.float) :
  F64.truthy old_price = true ->
  check_price_drop new_price (Some old_price) t
  = Ok (t <=? (old_price - new_price) / old_price * 100)%float.
Proof.
  intros Ht. unfold check_price_drop, truediv.
  now rewrite (F64Facts.truthy_not_zero _ Ht).
Qed.

Lemma truediv_truthy (x y : PrimFloat.float) :
  F64.truthy y = true -> truediv x y = Ok (x / y)%float.
Proof. intros Ht. unfold truediv. now rewrite (F64Facts.truthy_not_zero _ Ht). Qed.

Section RunInvariant.

Variable py : python.
Variable os : platform.
Variable timestamp : string.
Variable R : world -> world -> Prop.
Variable okx : exn -> Prop.

Hypothesis R_refl : forall w, R w w.
Hypothesis R_trans : forall a b c, R a b -> R b c -> R a c.
Hypothesis R_events :
  forall w delta, Forall (clean_of okx) delta -> R w (add_events w delta).
Hypothesis R_tick : forall w, R w (tick w).
Hypothesis R_file : forall w f, R w (set_file w f).
Hypothesis R_append :
  forall w e,
    Entry.timestamp e = Some timestamp ->
    R w (set_prices (set_new_entries w (new_entries w ++ [e]))
           (prices w ++ [e])).
Hypothesis okx_other : forall e, e <> ZeroDivisionError -> okx e.
Hypothesis okx_smtp :
  forall host port user password msg e,
    smtp_session os host port user password msg = Some e -> okx e.

Lemma fetch_event_clean (ev : event) : fetch_event ev -> clean_of okx ev.
Proof.
  intros [_ H]. destruct ev as [lvl msg| | | |]; simpl; try exact I.
  simpl in H. destruct (msg_exn msg) as [e|]; [|exact I].
  apply okx_other. intros He. subst e. discriminate.
Qed.

Lemma preserves_emit (ok : exn -> Prop) (ev : event) :
  clean_of okx ev -> preserves R ok (emit ev).
Proof.
  intros Hev w. split; [|discriminate].
  apply (R_events w [ev]). now repeat constructor.
Qed.

Lemma preserves_fetch_price (model : string) :
  preserves R okx (fetch_price py os model).
Proof.
  destruct (fetch_price_returns py os model) as (found & delta & Hd & Hlogs).
  intros w. rewrite !(Hlogs w). simpl. split; [|intros e; discriminate].
  apply R_events. apply (Forall_impl _ fetch_event_clean Hd).
Qed.

Lemma preserves_now : preserves R okx (now_isoformat os).
Proof. intros w. split; [apply R_tick | discriminate]. Qed.

Lemma preserves_raise_for_status (r : response) :
  preserves R okx (raise_for_status r).
Proof.
  unfold raise_for_status.
  destruct ((400 <=? status_code r)%Z && (status_code r <? 600)%Z).
  - apply preserves_raise; [assumption|]. apply okx_other. discriminate.
  - now apply preserves_ret.
Qed.

Ltac preserves_step :=
  match goal with
  | |- preserves _ _ (ret _) => apply preserves_ret; assumption
  | |- preserves _ _ (raise _) =>
      apply preserves_raise;
      [assumption | first [apply okx_other; discriminate | eauto]]
  | |- preserves _ _ (emit _) => apply preserves_emit; simpl; auto
  | |- preserves _ _ (logger _ _) => apply preserves_emit; simpl; auto
  | |- preserves _ _ (now_isoformat _) => apply preserves_now
  | |- preserves _ _ (raise_for_status _) => apply preserves_raise_for_status
  | |- preserves _ _ (bind _ _) =>
      apply preserves_bind; [assumption | | intros ?]
  | |- preserves _ _ (match ?x with _ => _ end) => destruct x eqn:?
  | |- preserves _ _ (if ?b then _ else _) => destruct b eqn:?
  end.

Lemma preserves_get_threshold (model : string) :
  preserves R okx (get_threshold py os model).
Proof.
  unfold get_threshold. repeat preserves_step.
  apply preserves_lift; [assumption|]. unfold float.
  intros e. destruct (float_of_str py _); [discriminate|].
  intros [= <-]. apply okx_other. discriminate.
Qed.

Lemma preserves_send_email (model : string)
  (old_price new_price : PrimFloat.float) :
  F64.truthy old_price = true ->
  preserves R okx (send_email_notification py os model old_price new_price).
Proof.
  intros Ht. unfold send_email_notification.
  apply preserves_bind; [assumption | |intros port].
  - apply preserves_lift; [assumption|]. unfold int.
    intros e. destruct (int_of_str py _); [discriminate|].
    intros [= <-]. apply okx_other. discriminate.
  - destruct (negb _); [repeat preserves_step|].
    apply preserves_try_except_all with (okb := okx); [assumption | |].
    + rewrite (truediv_truthy _ _ Ht).
      apply preserves_bind; [assumption | |intros q].
      * apply preserves_lift; [assumption | discriminate].
      * repeat preserves_step.
    + intros e He. repeat preserves_step.
Qed.

Lemma preserves_send_webhook (model : string)
  (old_price new_price : PrimFloat.float) :
  F64.truthy old_price = true ->
  preserves R okx (send_webhook_notification os model old_price new_price).
Proof.
  intros Ht. unfold send_webhook_notification.
  destruct (negb _); [repeat preserves_step|].
  apply preserves_try_except_all with (okb := okx); [assumption | |].
  - rewrite (truediv_truthy _ _ Ht).
    apply preserves_bind; [assumption | |intros q].
    + apply preserves_lift; [assumption | discriminate].
    + repeat preserves_step.
  - intros e He. repeat preserves_step.
Qed.

Lemma preserves_appends (e : entry) (k : M unit) :
  Entry.timestamp e = Some timestamp ->
  preserves R okx k ->
  preserves R okx (new_entries_append e ;; prices_append e ;; k).
Proof.
  intros He Hk w. unfold bind, new_entries_append, prices_append. simpl.
  destruct (Hk (set_prices (set_new_entries w (new_entries w ++ [e]))
                  (prices w ++ [e]))) as [HR Hok].
  split; [|exact Hok].
  eapply R_trans; [apply (R_append w e He) | exact HR].
Qed.

Lemma preserves_get_prices : preserves R okx get_prices.
Proof. intros w. split; [apply R_refl | discriminate]. Qed.

Lemma preserves_main_step (model : string) :
  preserves R okx (main_step py os timestamp model).
Proof.
  unfold main_step.
  apply preserves_bind; [assumption | apply preserves_fetch_price |].
  intros [price|]; [|repeat preserves_step].
  destruct (dict_get MODELS model) as [config|]; [|repeat preserves_step].
  apply preserves_appends; [reflexivity|].
  apply preserves_bind; [assumption | repeat preserves_step | intros _].
  apply preserves_bind; [assumption | apply preserves_get_prices |].
  intros l.
  destruct (get_latest_price (removelast l) model) as [old|];
    [|repeat preserves_step].
  destruct (F64.truthy old) eqn:Ht; [|repeat preserves_step].
  apply preserves_bind;
    [assumption | apply preserves_get_threshold | intros threshold].
  rewrite (check_price_drop_truthy _ _ _ Ht).
  apply preserves_bind; [assumption | |intros is_drop].
  - apply preserves_lift; [assumption | discriminate].
  - destruct is_drop; [|repeat preserves_step].
    apply preserves_bind; [assumption | repeat preserves_step | intros _].
    apply preserves_bind;
      [assumption | now apply preserves_send_email | intros _].
    apply preserves_bind;
      [assumption | now apply preserves_send_webhook | intros _].
    repeat preserves_step.
Qed.

Lemma preserves_main_loop (models : list string) :
  preserves R okx (main_loop py os timestamp models).
Proof.
  induction models as [|model rest IH]; simpl.
  - now apply preserves_ret.
  - apply preserves_bind; [assumption | apply preserves_main_step |].
    intros _. exact IH.
Qed.

Lemma preserves_write_json (data : list entry) (indent : nat) :
  preserves R (fun e => e = IOError) (write_json py os data indent).
Proof.
  intros w. unfold write_json.
  destruct (disk_write os); simpl; split;
    try apply R_file; try apply R_refl; congruence.
Qed.

Lemma preserves_save_prices (data : list entry) :
  preserves R okx (save_prices py os data).
Proof.
  unfold save_prices.
  change (try_except ?body ?clauses)
    with (try_except_all body (dispatch clauses)).
  apply preserves_try_except_all with (okb := fun e => e = IOError);
    [assumption | |].
  - apply preserves_bind; [assumption | apply preserves_write_json |].
    intros _. apply preserves_emit. exact I.
  - intros e ->. simpl. apply preserves_emit. simpl.
    apply okx_other. discriminate.
Qed.

(** The part of [main] after the loop. *)
Lemma preserves_main_end :
  preserves R okx
    (prices <- get_prices ;; save_prices py os prices ;;
     logger INFO MsgCompleted).
Proof.
  apply preserves_bind; [assumption | apply preserves_get_prices |].
  intros l.
  apply preserves_bind; [assumption | apply preserves_save_prices |].
  intros _. apply preserves_emit. exact I.
Qed.

End RunInvariant.

(** [load_prices] returns a history, and only logs. *)
Lemma load_prices_returns (py : python) (os : platform) (w : world) :
  exists loaded delta,
    load_prices py os w = (Ok loaded, add_events w delta) /\
    Forall (fun ev => reports_zero_division ev = false) delta.
Proof.
  unfold load_prices, read_json, try_except.
  destruct (prices_file w) as [text|].
  - destruct (disk_read_fails os); simpl.
    + eexists [], [_]. split; [reflexivity | repeat constructor].
    + destruct (json_load py text) as [data|]; simpl.
      * exists data, []. rewrite add_events_nil. split; [reflexivity|constructor].
      * eexists [], [_]. split; [reflexivity | repeat constructor].
  - exists [], []. rewrite add_events_nil. split; [reflexivity|constructor].
Qed.

(** ** One timestamp per run *)

Arguments main_loop : simpl never.

Lemma main_unfold (py : python) (os : platform) (w : world)
  (loaded : list entry) (delta : list event) :
  load_prices py os (add_events w [EvLog INFO MsgStarting])
  = (Ok loaded, add_events (add_events w [EvLog INFO MsgStarting]) delta) ->
  main py os w
  = (main_loop py os (datetime_now os (ticks w)) (keys MODELS) ;;
     prices <- get_prices ;;
     save_prices py os prices ;;
     logger INFO MsgCompleted) (loop_start w loaded delta).
Proof.
  intros Hload. unfold main.
  unfold bind at 1. unfold logger at 1, emit at 1.
  fold (add_events w [EvLog INFO MsgStarting]).
  unfold bind at 1. rewrite Hload.
  unfold bind at 1 2 3, now_isoformat. reflexivity.
Qed.

Section Appended.

Variable ts : string.

Lemma appended_same (w w' : world) :
  prices w' = prices w -> new_entries w' = new_entries w -> appended ts w w'.
Proof.
  intros Hp Hn. exists []. rewrite !app_nil_r. repeat split; auto.
Qed.

Lemma appended_trans (a b c : world) :
  appended ts a b -> appended ts b c -> appended ts a c.
Proof.
  intros (l1 & Hp1 & Hn1 & H1) (l2 & Hp2 & Hn2 & H2).
  exists (l1 ++ l2). rewrite Hp2, Hp1, Hn2, Hn1, <- !app_assoc.
  repeat split. now apply Forall_app.
Qed.

Lemma appended_one (w : world) (e : entry) :
  Entry.timestamp e = Some ts ->
  appended ts w (set_prices (set_new_entries w (new_entries w ++ [e]))
                   (prices w ++ [e])).
Proof. intros He. exists [e]. repeat split. now repeat constructor. Qed.

End Appended.

(** Claim C9: the observations a run appends all carry one timestamp, the
    reading of the clock taken once before the loop, also when the clock is
    read again during the run. At the end of [main] the list [prices] is
    the loaded history followed by the appended observations. *)
Theorem run_shares_one_timestamp (py : python) (os : platform) (w : world) :
  exists loaded,
    fst (load_prices py os (add_events w [EvLog INFO MsgStarting])) = Ok loaded /\
    prices (snd (main py os w)) = loaded ++ new_entries (snd (main py os w)) /\
    Forall (fun e => Entry.timestamp e = Some (datetime_now os (ticks w)))
           (new_entries (snd (main py os w))).
Proof.
  destruct (load_prices_returns py os (add_events w [EvLog INFO MsgStarting]))
    as (loaded & delta & Hload & _).
  exists loaded. rewrite Hload. split; [reflexivity|].
  rewrite (main_unfold py os w loaded delta Hload).
  set (ts := datetime_now os (ticks w)).
  assert (Hrun : preserves (appended ts) (fun _ => True)
                   (main_loop py os ts (keys MODELS) ;;
                    prices <- get_prices ;;
                    save_prices py os prices ;;
                    logger INFO MsgCompleted)).
  { assert (Hrefl : forall w0, appended ts w0 w0)
      by (intros; now apply appended_same).
    assert (Hev : forall w0 d, Forall (clean_of (fun _ => True)) d ->
                               appended ts w0 (add_events w0 d))
      by (intros; now apply appended_same).
    assert (Htick : forall w0, appended ts w0 (tick w0))
      by (intros; now apply appended_same).
    assert (Hfile : forall w0 f, appended ts w0 (set_file w0 f))
      by (intros; now apply appended_same).
    apply preserves_bind; [apply appended_trans | |].
    - apply preserves_main_loop;
        [exact Hrefl | apply appended_trans | exact Hev | exact Htick
        | apply appended_one | intros; exact I | intros; exact I].
    - intros _.
      apply preserves_main_end;
        [exact Hrefl | apply appended_trans | exact Hev | exact Hfile
        | intros; exact I]. }
  destruct (Hrun (loop_start w loaded delta)) as [(added & Hp & Hn & Hts) _].
  change (prices (loop_start w loaded delta)) with loaded in Hp.
  change (new_entries (loop_start w loaded delta)) with (@nil entry) in Hn.
  rewrite Hp, Hn. split; [reflexivity | exact Hts].
Qed.

(** ** No division by zero during a run *)

Lemma no_zero_division_same (w w' : world) :
  events w' = events w -> no_zero_division w w'.
Proof. intros H. exists []. rewrite app_nil_r. split; [exact H | constructor]. Qed.

Lemma no_zero_division_trans (a b c : world) :
  no_zero_division a b -> no_zero_division b c -> no_zero_division a c.
Proof.
  intros (d1 & H1 & F1) (d2 & H2 & F2). exists (d1 ++ d2).
  rewrite H2, H1, app_assoc. split; [reflexivity | now apply Forall_app].
Qed.

Lemma no_zero_division_events (w : world) (delta : list event) :
  Forall (clean_of (fun e => e <> ZeroDivisionError)) delta ->
  no_zero_division w (add_events w delta).
Proof.
  intros H. exists delta. split; [reflexivity|].
  apply (Forall_impl _ (P := clean_of (fun e => e <> ZeroDivisionError)));
    [|exact H].
  intros [lvl msg| | | |] Hc; simpl in *; try reflexivity.
  destruct (msg_exn msg) as [e|]; [|reflexivity].
  destruct e; try reflexivity. now contradiction Hc.
Qed.

Lemma guarded_step (py : python) (os : platform) (timestamp model : string)
  (w : world) (price : PrimFloat.float) (config : Config.t) :
  fst (fetch_price py os model w) = Ok (Some price) ->
  dict_get MODELS model = Some config ->
  (forall old, get_latest_price (prices w) model = Some old ->
               (old =? 0)%float = true) ->
  exists delta,
    Forall not_notification delta /\
    main_step py os timestamp model w
    = (Ok tt,
       add_events
         (set_prices
            (set_new_entries (add_events w delta)
               (new_entries w ++ [recorded timestamp model price config]))
            (prices w ++ [recorded timestamp model price config]))
         [EvLog INFO (MsgPrice model price)]).
Proof.
  intros Hfetch Hconfig Hzero.
  destruct (fetch_price_returns py os model) as (found & delta & Hd & Hlogs).
  rewrite (Hlogs w) in Hfetch. simpl in Hfetch. injection Hfetch as ->.
  exists delta. split.
  { apply (Forall_impl _ (fun ev (H : fetch_event ev) => proj1 H) Hd). }
  unfold main_step. unfold bind at 1. rewrite (Hlogs w). rewrite Hconfig.
  unfold bind, new_entries_append, prices_append, logger, emit, get_prices.
  cbn [fst snd prices new_entries events set_prices set_new_entries add_events
       ticks prices_file].
  fold (recorded timestamp model price config).
  rewrite removelast_last.
  destruct (get_latest_price (prices w) model) as [old|] eqn:Hold;
    [|reflexivity].
  unfold F64.truthy. rewrite (Hzero old eq_refl). reflexivity.
Qed.

Lemma main_no_zero_division (py : python) (os : platform) (w : world) :
  (forall host port user password msg,
      smtp_session os host port user password msg <> Some ZeroDivisionError) ->
  fst (main py os w) <> Raise ZeroDivisionError /\
  no_zero_division w (snd (main py os w)).
Proof.
  intros Hsmtp.
  destruct (load_prices_returns py os (add_events w [EvLog INFO MsgStarting]))
    as (loaded & delta & Hload & Hdelta).
  rewrite (main_unfold py os w loaded delta Hload).
  set (ts := datetime_now os (ticks w)).
  assert (Hrefl : forall w0, no_zero_division w0 w0)
    by (intros; now apply no_zero_division_same).
  assert (Htick : forall w0, no_zero_division w0 (tick w0))
    by (intros; now apply no_zero_division_same).
  assert (Hfile : forall w0 f, no_zero_division w0 (set_file w0 f))
    by (intros; now apply no_zero_division_same).
  assert (Happ : forall w0 e, Entry.timestamp e = Some ts ->
            no_zero_division w0
              (set_prices (set_new_entries w0 (new_entries w0 ++ [e]))
                 (prices w0 ++ [e])))
    by (intros; now apply no_zero_division_same).
  assert (Hrun : preserves no_zero_division (fun e => e <> ZeroDivisionError)
                   (main_loop py os ts (keys MODELS) ;;
                    prices <- get_prices ;;
                    save_prices py os prices ;;
                    logger INFO MsgCompleted)).
  { apply preserves_bind; [apply no_zero_division_trans | |].
    - apply preserves_main_loop;
        [exact Hrefl | apply no_zero_division_trans
        | apply no_zero_division_events | exact Htick | exact Happ
        | auto |].
      intros host port user password msg e He ->.
      exact (Hsmtp _ _ _ _ _ He).
    - intros _.
      apply preserves_main_end;
        [exact Hrefl | apply no_zero_division_trans
        | apply no_zero_division_events | exact Hfile | auto]. }
  destruct (Hrun (loop_start w loaded delta)) as [Hev Hok].
  split.
  - intros He. exact (Hok _ He eq_refl).
  - apply no_zero_division_trans with (loop_start w loaded delta); [|exact Hev].
    exists ([EvLog INFO MsgStarting] ++ delta). split.
    + unfold loop_start. simpl. now rewrite <- app_assoc.
    + apply Forall_app. split; [repeat constructor | exact Hdelta].
Qed.

(** Claim C10: the orchestrator tests the truth value of the prior price
    before it does anything with it. When the latest prior price for the
    model is missing or zero, the step records the observation, logs the
    price and stops: no threshold is read, no drop is computed and nothing
    is delivered. Hence no division of a run has a zero divisor: [main]
    does not raise [ZeroDivisionError] and no sink logs one, whatever the
    history holds (as long as the mail server itself does not answer with
    one). *)
Theorem zero_prior_price_is_guarded (py : python) (os : platform) :
  (forall timestamp model w price config,
      fst (fetch_price py os model w) = Ok (Some price) ->
      dict_get MODELS model = Some config ->
      (forall old, get_latest_price (prices w) model = Some old ->
                   (old =? 0)%float = true) ->
      exists delta,
        Forall not_notification delta /\
        main_step py os timestamp model w
        = (Ok tt,
           add_events
             (set_prices
                (set_new_entries (add_events w delta)
                   (new_entries w ++ [recorded timestamp model price config]))
                (prices w ++ [recorded timestamp model price config]))
             [EvLog INFO (MsgPrice model price)])) /\
  ((forall host port user password msg,
       smtp_session os host port user password msg <> Some ZeroDivisionError) ->
   forall w,
     fst (main py os w) <> Raise ZeroDivisionError /\
     no_zero_division w (snd (main py os w))).
Proof.
  split.
  - intros timestamp model w price config. apply guarded_step.
  - intros Hsmtp w. now apply main_no_zero_division.
Qed.

(** ** Save and load *)


(** When the file cannot be opened for writing, the save is logged as
    failed and the file keeps what it had. *)
Lemma save_prices_open_fails (py : python) (os : platform) (H : list entry)
  (w : world) :
  disk_write os = OpenFails ->
  save_prices py os H w
  = (Ok tt, add_events w [EvLog ERROR (MsgSaveError IOError)]).
Proof.
  intros Hwrite.
  unfold save_prices, write_json, try_except, bind. rewrite Hwrite.
  reflexivity.
Qed.

(** ** The notification sinks *)

Lemma send_webhook_returns (os : platform) (model : string)
  (old_price new_price : PrimFloat.float) (w : world) :
  exists sent w',
    send_webhook_notification os model old_price new_price w = (Ok sent, w').
Proof.
  unfold send_webhook_notification.
  destruct (negb _); [run; eauto|].
  unfold try_except_all.
  destruct (bind _ _ w) as [[sent|e] w'] eqn:E; [eauto|].
  run. eauto.
Qed.

(** With a port that [int] accepts the email sink returns too. *)
Lemma send_email_returns (py : python) (os : platform) (model : string)
  (old_price new_price : PrimFloat.float) (w : world) (port : Z) :
  int_of_str py (getenv os "SMTP_PORT" "587") = Some port ->
  exists sent w',
    send_email_notification py os model old_price new_price w = (Ok sent, w').
Proof.
  intros Hport. unfold send_email_notification, int. rewrite Hport.
  unfold bind at 1, lift at 1.
  destruct (negb _); [run; eauto|].
  unfold try_except_all.
  destruct (bind _ _ w) as [[sent|e] w'] eqn:E; [eauto|].
  run. eauto.
Qed.

(** A sink that is not configured answers [False] and only logs. *)
Lemma send_email_not_configured (py : python) (os : platform) (model : string)
  (old_price new_price : PrimFloat.float) (w : world) (port : Z) :
  int_of_str py (getenv os "SMTP_PORT" "587") = Some port ->
  forallb opt_truthy
    [environ os "SMTP_HOST"; environ os "SMTP_USER";
     environ os "SMTP_PASSWORD"; environ os "SMTP_TO"] = false ->
  send_email_notification py os model old_price new_price w
  = (Ok false, add_events w [EvLog WARNING MsgSmtpNotConfigured]).
Proof.
  intros Hport Hconf. unfold send_email_notification, int. rewrite Hport.
  unfold bind at 1, lift at 1. rewrite Hconf. reflexivity.
Qed.

(** With a port that [int] rejects the email sink raises, whatever else is
    configured. *)
Lemma send_email_bad_port (py : python) (os : platform) (model : string)
  (old_price new_price : PrimFloat.float) (w : world) :
  int_of_str py (getenv os "SMTP_PORT" "587") = None ->
  send_email_notification py os model old_price new_price w
  = (Raise ValueError, w).
Proof.
  intros Hport. unfold send_email_notification, int. rewrite Hport.
  reflexivity.
Qed.

(** ** Runs on sample data *)

(** Scenario 2 of the specification: 1000 then 940 at threshold 5 is a
    drop of 6 percent, and the webhook is called with the two prices. The
    observation carries the first reading of the clock, the payload the
    second. *)
Example run_with_drop :
  let (r, w) := main literal_python shop (stored 1000) in
  r = Ok tt /\
  map Entry.timestamp (new_entries w) = [Some "2024-05-03T09:00:00"] /\
  notifications w
  = [EvPost "https://hooks.example.org/drop"
       {| wp_model := "iPhone 16 Pro Max";
          wp_old_price := 1000; wp_new_price := 940;
          wp_savings := 60; wp_drop_percent := 6;
          wp_timestamp := "2024-05-03T09:00:01" |}] /\
  json_load literal_python (or_empty (prices_file w)) = Some (prices w).
Proof. vm_compute. repeat split. Qed.

(** Scenario 1: with no history the observation is recorded and nothing
    is delivered. *)
Example run_without_history :
  let (r, w) := main literal_python shop fresh_world in
  r = Ok tt /\ List.length (prices w) = 1%nat /\ notifications w = [].
Proof. vm_compute. repeat split. Qed.

(** The threshold is read outside any handler: a value that [float]
    rejects ends the run when a model has a prior price. This is an error
    of the detection step, not of the fetch. *)
Example bad_threshold_ends_run :
  let (r, w) := main literal_python shop_bad_threshold (stored 1000) in
  r = Raise ValueError /\
  notifications w = [] /\
  prices_file w = prices_file (stored 1000).
Proof. vm_compute. repeat split. Qed.

(** Claim C7, where the code departs from it: with [SMTP_PORT=abc] the
    email sink raises [ValueError] instead of answering [False], and in a
    run with a drop the exception leaves [main]: the webhook, although
    configured, is not called, the next model is not processed and the
    history is not saved. *)
Theorem bad_smtp_port_escapes :
  send_email_notification literal_python shop_bad_port "iPhone 16 Pro Max"
    1000 940 fresh_world = (Raise ValueError, fresh_world) /\
  environ shop_bad_port "SMTP_TO" = None /\
  opt_truthy (environ shop_bad_port "WEBHOOK_URL") = true /\
  (let (r, w) := main literal_python shop_bad_port (stored 1000) in
   r = Raise ValueError /\
   notifications w = [] /\
   prices_file w = prices_file (stored 1000) /\
   existsb (fun ev => match ev with
                      | EvGet url => String.eqb url reebelo17_url
                      | _ => false
                      end) (events w) = false).
Proof. vm_compute. repeat split. Qed.



(** A history whose latest price for the model is 0.0: the step records
    the new price and stops, and the run divides by nothing. *)
Lemma zero_prior_price_is_guarded_witness :
  (exists delta,
      Forall not_notification delta /\
      main_step literal_python shop "2024-05-03T09:00:00" "iPhone 16 Pro Max"
        (loaded_world 0)
      = (Ok tt,
         add_events
           (set_prices
              (set_new_entries (add_events (loaded_world 0) delta)
                 (new_entries (loaded_world 0) ++
                  [recorded "2024-05-03T09:00:00" "iPhone 16 Pro Max" 940
                     (Config.Build "reebelo" reebelo_url "256GB"
                        "https://store.storeimages.cdn-apple.com/4982/as-images.apple.com/is/iphone-16-pro-max-naturaltitanium-select?wid=200&hei=200&fmt=jpeg&qlt=90&.v=1726616109456")]))
              (prices (loaded_world 0) ++
               [recorded "2024-05-03T09:00:00" "iPhone 16 Pro Max" 940
                  (Config.Build "reebelo" reebelo_url "256GB"
                     "https://store.storeimages.cdn-apple.com/4982/as-images.apple.com/is/iphone-16-pro-max-naturaltitanium-select?wid=200&hei=200&fmt=jpeg&qlt=90&.v=1726616109456")]))
           [EvLog INFO (MsgPrice "iPhone 16 Pro Max" 940)])) /\
  (fst (main literal_python shop (stored 0)) <> Raise ZeroDivisionError /\
   no_zero_division (stored 0) (snd (main literal_python shop (stored 0)))).
Proof.
  destruct (zero_prior_price_is_guarded literal_python shop) as [Hstep Hrun].
  split.
  - apply Hstep.
    + vm_compute. reflexivity.
    + reflexivity.
    + intros old Hold. vm_compute in Hold. injection Hold as <-. reflexivity.
  - apply Hrun. intros host port user password msg. discriminate.
Defined.


(** ** More on the history store *)


(** Property X2: [save_prices] does not raise. When the write succeeds the
    file holds the dump of the history; when the file cannot be opened it
    keeps what it had; when the write fails part-way the file is left with
    the characters written so far. The two failures are logged, and the
    caller is not told. *)
Theorem save_prices_contains_errors (py : python) (os : platform)
  (data : list entry) (w : world) :
  exists logged,
    save_prices py os data w
    = (Ok tt,
       add_events
         (set_file w
            match disk_write os with
            | WriteOk => Some (json_dump py data 2)
            | OpenFails => prices_file w
            | WriteFails n => Some (substring 0 n (json_dump py data 2))
            end)
         logged) /\
    logged = match disk_write os with
             | WriteOk => [EvLog INFO (MsgSaved (List.length data))]
             | _ => [EvLog ERROR (MsgSaveError IOError)]
             end.
Proof.
  unfold save_prices, write_json, try_except, bind.
  destruct (disk_write os); simpl; eexists; split; reflexivity.
Qed.

(** ** The read API *)


(** Property X4: what the monitor saved is what the API serves. After a
    save that wrote the file, with a readable disk and a codec that reads
    back what it wrote for this history, the handler answers 200 with the
    history. *)
Theorem api_serves_saved_history (py : python) (os : platform)
  (data : list entry) (w : world) :
  disk_write os = WriteOk ->
  disk_read_fails os = false ->
  json_load py (json_dump py data 2) = Some data ->
  exists w1,
    save_prices py os data w = (Ok tt, w1) /\
    App.get_prices py os w1 = (Ok (App.Prices data, 200%Z), w1).
Proof.
  intros Hwrite Hread Hcodec.
  exists (add_events (set_file w (Some (json_dump py data 2)))
            [EvLog INFO (MsgSaved (List.length data))]).
  split.
  - unfold save_prices, write_json, try_except, bind. rewrite Hwrite.
    reflexivity.
  - unfold App.get_prices, read_json, try_except, bind, ret. simpl.
    rewrite Hread, Hcodec. reflexivity.
Qed.

Lemma api_serves_saved_history_witness :
  exists w1,
    save_prices literal_python shop sample_history fresh_world = (Ok tt, w1) /\
    App.get_prices literal_python shop w1
    = (Ok (App.Prices sample_history, 200%Z), w1).
Proof.
  apply (api_serves_saved_history literal_python shop sample_history
           fresh_world).
  - reflexivity.
  - reflexivity.
  - vm_compute. reflexivity.
Defined.

(** ** More on fetching *)

Ltac trace_done :=
  eexists _, _; split; cycle 1;
  [ unfold add_events; simpl; rewrite <- ?app_assoc; simpl; reflexivity
  | reflexivity ].

Lemma fetch_apple_trace (py : python) (os : platform) (url : string)
  (w : world) :
  exists found logged,
    forallb is_log logged = true /\
    fetch_apple_refurbished_price py os url w
    = (Ok found, add_events w (EvGet url :: logged)).
Proof.
  unfold fetch_apple_refurbished_price. run.
  destruct (requests_get os url) as [r|]; simpl; [|trace_done].
  destruct ((400 <=? status_code r)%Z && (status_code r <? 600)%Z); simpl;
    [trace_done|].
  destruct (apple_scan py (content r) apple_price_selectors)
    as [[p|]|e] eqn:Hscan; simpl; try trace_done.
  apply apple_scan_raises in Hscan. subst e. simpl. trace_done.
Qed.

Lemma fetch_reebelo_trace (py : python) (os : platform) (url : string)
  (w : world) :
  exists found logged,
    forallb is_log logged = true /\
    fetch_reebelo_price py os url w
    = (Ok found, add_events w (EvGet url :: logged)).
Proof.
  unfold fetch_reebelo_price. run.
  destruct (requests_get os url) as [r|]; simpl; [|trace_done].
  destruct ((400 <=? status_code r)%Z && (status_code r <? 600)%Z); simpl;
    [trace_done|].
  destruct (reebelo_scan py (content r) reebelo_price_selectors []); simpl;
    trace_done.
Qed.

(** Every source of the registry has an extractor. *)
Lemma MODELS_sources (model : string) (config : Config.t) :
  dict_get MODELS model = Some config ->
  Config.source config = "apple_refurbished" \/
  Config.source config = "reebelo".
Proof.
  unfold MODELS, dict_get.
  repeat (destruct (String.eqb _ model);
          [intros [= <-]; simpl; auto|]).
  discriminate.
Qed.

Lemma fetch_price_trace (py : python) (os : platform) (model : string)
  (w : world) :
  exists found logged,
    forallb is_log logged = true /\
    fetch_price py os model w
    = (Ok found,
       add_events w
         match dict_get MODELS model with
         | Some config =>
             EvLog INFO (MsgFetching model (Config.source config))
             :: EvSleep :: EvGet (Config.url config) :: logged
         | None => logged
         end) /\
    match dict_get MODELS model with
    | Some _ => True
    | None => found = None /\ logged = [EvLog ERROR (MsgUnknownModel model)]
    end.
Proof.
  unfold fetch_price.
  destruct (dict_get MODELS model) as [config|] eqn:Hconfig.
  - unfold bind at 1, logger at 1, emit at 1.
    unfold bind at 1, sleep, emit at 1.
    destruct (MODELS_sources _ _ Hconfig) as [Hs | Hs]; rewrite Hs; simpl.
    + match goal with
      | |- context [fetch_apple_refurbished_price py os ?u ?w0] =>
          destruct (fetch_apple_trace py os u w0)
            as (found & logged & Hlog & Hrun); rewrite Hrun
      end.
      exists found, logged. split; [exact Hlog|]. split; [|exact I].
      unfold add_events. simpl. rewrite <- !app_assoc. reflexivity.
    + match goal with
      | |- context [fetch_reebelo_price py os ?u ?w0] =>
          destruct (fetch_reebelo_trace py os u w0)
            as (found & logged & Hlog & Hrun); rewrite Hrun
      end.
      exists found, logged. split; [exact Hlog|]. split; [|exact I].
      unfold add_events. simpl. rewrite <- !app_assoc. reflexivity.
  - exists None, [EvLog ERROR (MsgUnknownModel model)].
    repeat split.
Qed.


(** Property X6: a request that fails and a response with an error status
    (400 to 599) end both extractors the same way: not found, after the one
    request and one error record; the content of the response is not
    looked at. *)
Theorem failed_request_is_not_found (py : python) (os : platform)
  (url : string) (w : world) :
  (requests_get os url = None \/
   exists r, requests_get os url = Some r /\
             ((400 <=? status_code r) && (status_code r <? 600))%Z = true) ->
  fetch_apple_refurbished_price py os url w
  = (Ok None,
     add_events w
       [EvGet url; EvLog ERROR (MsgAppleFetchError RequestException)]) /\
  fetch_reebelo_price py os url w
  = (Ok None,
     add_events w
       [EvGet url; EvLog ERROR (MsgReebeloFetchError RequestException)]).
Proof.
  intros [Hget | (r & Hget & Hstatus)];
    unfold fetch_apple_refurbished_price, fetch_reebelo_price; run;
    rewrite Hget; simpl; rewrite ?Hstatus; simpl;
    unfold add_events; simpl; rewrite <- !app_assoc; split; reflexivity.
Qed.

(** The storefront of the sample shop does not answer. *)
Lemma failed_request_is_not_found_witness :
  fetch_apple_refurbished_price literal_python shop apple_url fresh_world
  = (Ok None,
     add_events fresh_world
       [EvGet apple_url; EvLog ERROR (MsgAppleFetchError RequestException)]) /\
  fetch_reebelo_price literal_python shop apple_url fresh_world
  = (Ok None,
     add_events fresh_world
       [EvGet apple_url; EvLog ERROR (MsgReebeloFetchError RequestException)]).
Proof.
  apply (failed_request_is_not_found literal_python shop apple_url fresh_world).
  left. reflexivity.
Defined.


(** ** More on drop detection *)

(** Property X8: lowering the threshold never removes an alert: a change
    that is a drop at threshold [t2] is a drop at every threshold
    [t1 <= t2]. *)
Theorem check_price_drop_monotone (new_price : PrimFloat.float)
  (old_price : option PrimFloat.float) (t1 t2 : PrimFloat.float) :
  (t1 <=? t2)%float = true ->
  check_price_drop new_price old_price t2 = Ok true ->
  check_price_drop new_price old_price t1 = Ok true.
Proof.
  intros Hle. unfold check_price_drop.
  destruct old_price as [old|]; [|discriminate].
  destruct (truediv (old - new_price) old) as [q|e]; [|discriminate].
  intros [= Hdrop]. f_equal.
  now apply F64Facts.leb_trans_float with t2.
Qed.

Lemma check_price_drop_monotone_witness :
  check_price_drop 940 (Some 1000%float) 3 = Ok true.
Proof.
  apply (check_price_drop_monotone 940 (Some 1000%float) 3 5);
    reflexivity.
Defined.

(** Property X9: a threshold or a new price that is not a number never
    gives an alert: the comparison with a NaN is false (the call answers
    [False], or raises when the old price is zero). *)
Theorem nan_never_drops (new_price : PrimFloat.float)
  (old_price : option PrimFloat.float) (t : PrimFloat.float) :
  is_nan t = true \/ is_nan new_price = true ->
  check_price_drop new_price old_price t <> Ok true.
Proof.
  intros Hnan. unfold check_price_drop, truediv.
  destruct old_price as [old|]; [|discriminate].
  destruct (old =? 0)%float; [discriminate|].
  intros [= Hdrop]. destruct Hnan as [Ht | Hnew].
  - rewrite (F64Facts.leb_nan_l _ _ Ht) in Hdrop. discriminate.
  - rewrite F64Facts.leb_nan_r in Hdrop; [discriminate|].
    apply F64Facts.mul_nan_l, F64Facts.div_nan_l, F64Facts.sub_nan_r, Hnew.
Qed.

Lemma nan_never_drops_witness :
  check_price_drop 1 (Some 1000%float) nan <> Ok true.
Proof.
  apply (nan_never_drops 1 (Some 1000%float) nan). left. reflexivity.
Defined.

(** ** More on the latest prior price *)

Lemma app_cons_split {A : Type} (pre1 pre2 post1 post2 : list A) (x1 x2 : A) :
  pre1 ++ x1 :: post1 = pre2 ++ x2 :: post2 ->
  (pre1 = pre2 /\ x1 = x2 /\ post1 = post2) \/ In x1 pre2 \/ In x2 pre1.
Proof.
  revert pre2. induction pre1 as [|a pre1 IH]; intros [|b pre2]; simpl.
  - intros [= -> ->]. now left.
  - intros [= -> _]. right. left. now left.
  - intros [= -> _]. right. right. now left.
  - intros [= -> H]. destruct (IH _ H) as [(-> & -> & ->) | [Hin | Hin]];
      [now left | right; left; now right | right; right; now right].
Qed.

Section FirstGreatest.

Context {A : Type} (key : A -> string).

Lemma first_greatest_unique (pre1 pre2 post1 post2 : list A) (x1 x2 : A) :
  pre1 ++ x1 :: post1 = pre2 ++ x2 :: post2 ->
  first_greatest key pre1 x1 post1 -> first_greatest key pre2 x2 post2 ->
  x1 = x2.
Proof.
  intros Heq [Hmax1 Hpre1] [Hmax2 Hpre2].
  destruct (app_cons_split _ _ _ _ _ _ Heq) as [(_ & H & _) | [Hin | Hin]];
    [exact H | exfalso | exfalso].
  - pose proof (StrOrd.ltb_not_leb _ _ (Hpre2 _ Hin)) as Hn.
    rewrite Hmax1 in Hn; [discriminate|].
    rewrite Heq. apply in_or_app. right. now left.
  - pose proof (StrOrd.ltb_not_leb _ _ (Hpre1 _ Hin)) as Hn.
    rewrite Hmax2 in Hn; [discriminate|].
    rewrite <- Heq. apply in_or_app. right. now left.
Qed.

Lemma sort_reverse_first_greatest (pre post : list A) (x : A) :
  first_greatest key pre x post ->
  exists rest, sort_reverse key (pre ++ x :: post) = x :: rest.
Proof.
  intros Hx.
  destruct (pre ++ x :: post) as [|y l] eqn:E;
    [now destruct pre|].
  destruct (sort_reverse_head key y l)
    as (pre' & latest & post' & rest & Hsplit & Hsort & Hmax & Hpre).
  exists rest. rewrite Hsort. f_equal. symmetry.
  apply (first_greatest_unique pre pre' post post' x latest).
  - now rewrite E.
  - exact Hx.
  - split; [|exact Hpre]. intros p Hp. apply Hmax. now rewrite Hsplit.
Qed.

End FirstGreatest.

Lemma get_latest_price_first_greatest (model : string)
  (pre post : list entry) (latest : entry) :
  model_is model latest = true ->
  first_greatest timestamp_key (filter (model_is model) pre) latest
    (filter (model_is model) post) ->
  get_latest_price (pre ++ latest :: post) model = Entry.price latest.
Proof.
  intros Hm Hfirst. unfold get_latest_price.
  rewrite filter_app. simpl. rewrite Hm.
  destruct (sort_reverse_first_greatest timestamp_key _ _ _ Hfirst)
    as (rest & Hsort).
  destruct (filter (model_is model) pre ++ latest :: filter (model_is model) post)
    as [|y l] eqn:E; [now destruct (filter (model_is model) pre)|].
  now rewrite Hsort.
Qed.

Lemma latest_entry_exists (model : string) (prices : list entry) (p0 : entry) :
  In p0 prices -> model_is model p0 = true ->
  exists pre latest post,
    prices = pre ++ latest :: post /\
    model_is model latest = true /\
    first_greatest timestamp_key (filter (model_is model) pre) latest
      (filter (model_is model) post).
Proof.
  intros Hin0 Hp0.
  destruct (filter (model_is model) prices) as [|x l] eqn:E.
  - assert (Hin : In p0 (filter (model_is model) prices))
      by (apply filter_In; split; assumption).
    rewrite E in Hin. destruct Hin.
  - destruct (sort_reverse_head timestamp_key x l)
      as (fpre & latest & fpost & rest & Hsplit & _ & Hmax & Hpre).
    rewrite Hsplit in E.
    destruct (filter_split _ _ _ _ _ E) as (pre & post & -> & <- & <-).
    exists pre, latest, post. split; [reflexivity|]. split.
    + assert (Hin : In latest (filter (model_is model) (pre ++ latest :: post))).
      { rewrite E. apply in_or_app. right. now left. }
      apply filter_In in Hin. tauto.
    + split; [|exact Hpre]. intros p Hp. apply Hmax. now rewrite Hsplit.
Qed.

(** Property X10: entries of other models, and entries without a model,
    do not count: removing one from the history, wherever it stands, leaves
    the latest price of the model as it was. *)
Theorem get_latest_price_ignores_others (model : string)
  (before after_ : list entry) (e : entry) :
  model_is model e = false ->
  get_latest_price (before ++ e :: after_) model
  = get_latest_price (before ++ after_) model.
Proof.
  intros He. unfold get_latest_price. rewrite !filter_app. simpl.
  now rewrite He.
Qed.

Lemma get_latest_price_ignores_others_witness :
  get_latest_price sample_history "iPhone 16 Pro Max"
  = get_latest_price
      [ observation "2024-05-01T09:00:00.000001" "iPhone 16 Pro Max" 1000;
        observation "2024-05-02T09:00:00.000001" "iPhone 16 Pro Max" 940;
        observation "2024-05-02T09:00:00.000001" "iPhone 16 Pro Max" 930.25 ]
      "iPhone 16 Pro Max".
Proof.
  exact (get_latest_price_ignores_others "iPhone 16 Pro Max"
           [observation "2024-05-01T09:00:00.000001" "iPhone 16 Pro Max" 1000]
           [observation "2024-05-02T09:00:00.000001" "iPhone 16 Pro Max" 940;
            observation "2024-05-02T09:00:00.000001" "iPhone 16 Pro Max" 930.25]
           (observation "2024-05-01T09:00:00.000001" "iPhone 15 Pro Max" 899.5)
           eq_refl).
Defined.

(** Property X11: what an appended observation does to the baseline. An
    entry for the model appended to the history becomes the latest price
    when its timestamp is strictly greater than that of every entry for the
    model; when some entry for the model has a timestamp at least as great
    (an equal one included), the latest price stays what it was. *)
Theorem get_latest_price_after_append (model : string) (prices : list entry)
  (e : entry) :
  model_is model e = true ->
  ((forall p, In p prices -> model_is model p = true ->
      String.ltb (timestamp_key p) (timestamp_key e) = true) ->
   get_latest_price (prices ++ [e]) model = Entry.price e) /\
  (forall p, In p prices -> model_is model p = true ->
     String.leb (timestamp_key e) (timestamp_key p) = true ->
     get_latest_price (prices ++ [e]) model = get_latest_price prices model).
Proof.
  intros He. split.
  - intros Hnewer.
    apply (get_latest_price_first_greatest model prices [] e He).
    split.
    + intros p Hp. apply in_app_or in Hp. destruct Hp as [Hp | [<- | []]].
      * apply filter_In in Hp. apply StrOrd.ltb_leb. now apply Hnewer.
      * apply StrOrd.leb_refl.
    + intros p Hp. apply filter_In in Hp. now apply Hnewer.
  - intros p0 Hin0 Hp0 Hle.
    destruct (latest_entry_exists model prices p0 Hin0 Hp0)
      as (pre & latest & post & -> & Hlatest & Hmax & Hpre).
    rewrite (get_latest_price_first_greatest model pre post latest Hlatest
               (conj Hmax Hpre)).
    rewrite <- app_assoc. simpl.
    apply (get_latest_price_first_greatest model pre (post ++ [e]) latest
             Hlatest).
    split; [|exact Hpre].
    intros p Hp. rewrite filter_app in Hp. simpl in Hp. rewrite He in Hp.
    rewrite app_comm_cons, app_assoc in Hp.
    apply in_app_or in Hp. destruct Hp as [Hp | [<- | []]].
    + now apply Hmax.
    + apply StrOrd.leb_trans with (timestamp_key p0); [exact Hle|].
      apply Hmax.
      assert (H0 : In p0 (filter (model_is model) (pre ++ latest :: post)))
        by (apply filter_In; split; assumption).
      rewrite filter_app in H0. simpl in H0. now rewrite Hlatest in H0.
Qed.

(** A later observation becomes the baseline; one with the timestamp of
    the stored entry does not. *)
Lemma get_latest_price_after_append_witness :
  get_latest_price
    ([observation "2024-05-01T09:00:00" "iPhone 16 Pro Max" 1000]
     ++ [observation "2024-05-02T09:00:00" "iPhone 16 Pro Max" 940])
    "iPhone 16 Pro Max" = Some 940%float /\
  get_latest_price
    ([observation "2024-05-01T09:00:00" "iPhone 16 Pro Max" 1000]
     ++ [observation "2024-05-01T09:00:00" "iPhone 16 Pro Max" 940])
    "iPhone 16 Pro Max"
  = get_latest_price
      [observation "2024-05-01T09:00:00" "iPhone 16 Pro Max" 1000]
      "iPhone 16 Pro Max".
Proof.
  split.
  - apply (proj1 (get_latest_price_after_append "iPhone 16 Pro Max"
                    [observation "2024-05-01T09:00:00" "iPhone 16 Pro Max" 1000]
                    (observation "2024-05-02T09:00:00" "iPhone 16 Pro Max" 940)
                    eq_refl)).
    intros p [<- | []] _. reflexivity.
  - apply (proj2 (get_latest_price_after_append "iPhone 16 Pro Max"
                    [observation "2024-05-01T09:00:00" "iPhone 16 Pro Max" 1000]
                    (observation "2024-05-01T09:00:00" "iPhone 16 Pro Max" 940)
                    eq_refl)
             (observation "2024-05-01T09:00:00" "iPhone 16 Pro Max" 1000)).
    + now left.
    + reflexivity.
    + reflexivity.
Defined.

(** ** The threshold of a model *)



Lemma str_truthy_append (word a : string) :
  str_truthy a = true -> str_truthy (word ++ a) = true.
Proof. destruct word; simpl; auto. Qed.






(** ** More on the sinks *)

Lemma deliveries_app (a b : list event) :
  deliveries (a ++ b) = deliveries a ++ deliveries b.
Proof. apply filter_app. Qed.

Lemma send_webhook_run (os : platform) (model : string)
  (old_price new_price : PrimFloat.float) (w : world) :
  exists sent w',
    send_webhook_notification os model old_price new_price w = (Ok sent, w') /\
    prices w' = prices w /\ new_entries w' = new_entries w /\
    prices_file w' = prices_file w /\
    if opt_truthy (environ os "WEBHOOK_URL") && negb (old_price =? 0)%float
    then
      let url := or_empty (environ os "WEBHOOK_URL") in
      let payload := payload_for os model old_price new_price w in
      deliveries (events w') = deliveries (events w) ++ [EvPost url payload] /\
      sent = match requests_post os url payload with
             | Some r => status_ok r
             | None => false
             end
    else deliveries (events w') = deliveries (events w) /\ sent = false.
Proof.
  unfold send_webhook_notification, payload_for, status_ok.
  destruct (opt_truthy (environ os "WEBHOOK_URL")); simpl.
  - unfold try_except_all, bind, lift, truediv.
    destruct (old_price =? 0)%float; simpl.
    + eexists _, _. split; [reflexivity|]. simpl.
      rewrite deliveries_app, app_nil_r. repeat split.
    + unfold now_isoformat, emit, raise_for_status, logger, emit, raise, ret.
      simpl.
      destruct (requests_post os _ _) as [r|]; simpl.
      * destruct ((400 <=? status_code r)%Z && (status_code r <? 600)%Z);
          simpl; eexists _, _; (split; [reflexivity|]); simpl;
          rewrite !deliveries_app; simpl; rewrite ?app_nil_r; repeat split.
      * eexists _, _. split; [reflexivity|]. simpl.
        rewrite !deliveries_app. simpl. rewrite ?app_nil_r. repeat split.
  - run. eexists _, _. split; [reflexivity|]. simpl.
    rewrite deliveries_app, app_nil_r. repeat split.
Qed.

(** Property X13: the webhook sink does not raise and leaves the history
    and the file alone. It sends a request exactly when [WEBHOOK_URL] is
    set and non-empty and the old price is not zero: one POST to that URL
    with the two prices, their difference, the drop in percent and a fresh
    reading of the clock; it answers [True] exactly when that request
    returns a status below 400 or above 599. Otherwise nothing is sent and
    it answers [False]. *)
Theorem send_webhook_outcome (os : platform) (model : string)
  (old_price new_price : PrimFloat.float) (w : world) :
  exists sent w',
    send_webhook_notification os model old_price new_price w = (Ok sent, w') /\
    prices w' = prices w /\ new_entries w' = new_entries w /\
    prices_file w' = prices_file w /\
    if opt_truthy (environ os "WEBHOOK_URL") && negb (old_price =? 0)%float
    then
      let url := or_empty (environ os "WEBHOOK_URL") in
      let payload := payload_for os model old_price new_price w in
      deliveries (events w') = deliveries (events w) ++ [EvPost url payload] /\
      sent = match requests_post os url payload with
             | Some r => status_ok r
             | None => false
             end
    else deliveries (events w') = deliveries (events w) /\ sent = false.
Proof. apply send_webhook_run. Qed.

Lemma send_email_run (py : python) (os : platform) (model : string)
  (old_price new_price : PrimFloat.float) (w : world) (port : Z) :
  int_of_str py (getenv os "SMTP_PORT" "587") = Some port ->
  exists sent logged,
    send_email_notification py os model old_price new_price w
    = (Ok sent, add_events w logged) /\
    if smtp_configured os && negb (old_price =? 0)%float
    then
      let host := or_empty (environ os "SMTP_HOST") in
      let msg := message_for os model old_price new_price in
      deliveries logged = [EvSmtp host port msg] /\
      sent = match smtp_session os host port
                     (or_empty (environ os "SMTP_USER"))
                     (or_empty (environ os "SMTP_PASSWORD")) msg with
             | None => true
             | Some _ => false
             end
    else deliveries logged = [] /\ sent = false.
Proof.
  intros Hport.
  unfold send_email_notification, int, smtp_configured, message_for.
  rewrite Hport. unfold bind at 1, lift at 1.
  destruct (forallb opt_truthy _); simpl.
  - unfold try_except_all, bind, lift, truediv.
    destruct (old_price =? 0)%float; simpl.
    + eexists _, [_]. split; [reflexivity|]. repeat split.
    + unfold emit, logger, emit, raise, ret. simpl.
      destruct (smtp_session os _ _ _ _ _) as [e|]; simpl;
        eexists _, [_; _]; (split; [unfold add_events; simpl;
          rewrite <- !app_assoc; reflexivity|]); repeat split.
  - run. eexists _, [_]. split; [reflexivity|]. repeat split.
Qed.

(** Property X14: with a port that [int] accepts, the email sink does not
    raise and touches nothing but the trace. It opens a mail session
    exactly when the four variables [SMTP_HOST], [SMTP_USER],
    [SMTP_PASSWORD] and [SMTP_TO] are set and non-empty and the old price is
    not zero: one session, with the message built from the two prices; it
    answers [True] exactly when that session raises nothing. Otherwise no
    session is opened and it answers [False]. *)
Theorem send_email_outcome (py : python) (os : platform) (model : string)
  (old_price new_price : PrimFloat.float) (w : world) (port : Z) :
  int_of_str py (getenv os "SMTP_PORT" "587") = Some port ->
  exists sent logged,
    send_email_notification py os model old_price new_price w
    = (Ok sent, add_events w logged) /\
    if smtp_configured os && negb (old_price =? 0)%float
    then
      let host := or_empty (environ os "SMTP_HOST") in
      let msg := message_for os model old_price new_price in
      deliveries logged = [EvSmtp host port msg] /\
      sent = match smtp_session os host port
                     (or_empty (environ os "SMTP_USER"))
                     (or_empty (environ os "SMTP_PASSWORD")) msg with
             | None => true
             | Some _ => false
             end
    else deliveries logged = [] /\ sent = false.
Proof. apply send_email_run. Qed.

Lemma send_email_outcome_witness :
  exists sent logged,
    send_email_notification literal_python shop_mail "iPhone 16 Pro Max"
      1000 940 fresh_world
    = (Ok sent, add_events fresh_world logged) /\
    deliveries logged
    = [EvSmtp "smtp.example.org" 587
         (message_for shop_mail "iPhone 16 Pro Max" 1000 940)] /\
    sent = true.
Proof.
  destruct (send_email_outcome literal_python shop_mail "iPhone 16 Pro Max"
              1000 940 fresh_world 587 eq_refl)
    as (sent & logged & Hrun & Hdel & Hsent).
  exists sent, logged. repeat split; assumption.
Defined.

(** ** What a run adds to the trace *)

Section Quiet.

Variable P : event -> Prop.
Context {A B : Type}.

Lemma quiet_same (m : M A) :
  (forall w, snd (m w) = w) -> quiet P m.
Proof.
  intros H w. rewrite H. split; [|repeat split].
  exists []. rewrite app_nil_r. split; [reflexivity | constructor].
Qed.

Lemma quiet_ret (a : A) : quiet P (ret a).
Proof. now apply quiet_same. Qed.

Lemma quiet_raise (e : exn) : quiet P (@raise A e).
Proof. now apply quiet_same. Qed.

Lemma quiet_lift (r : result A) : quiet P (lift r).
Proof. now apply quiet_same. Qed.

Lemma quiet_then (w w1 w2 : world) :
  ((exists d, events w1 = events w ++ d /\ Forall P d) /\
   prices w1 = prices w /\ new_entries w1 = new_entries w /\
   prices_file w1 = prices_file w) ->
  ((exists d, events w2 = events w1 ++ d /\ Forall P d) /\
   prices w2 = prices w1 /\ new_entries w2 = new_entries w1 /\
   prices_file w2 = prices_file w1) ->
  (exists d, events w2 = events w ++ d /\ Forall P d) /\
  prices w2 = prices w /\ new_entries w2 = new_entries w /\
  prices_file w2 = prices_file w.
Proof.
  intros [(d1 & E1 & F1) (Hp1 & Hn1 & Hf1)] [(d2 & E2 & F2) (Hp2 & Hn2 & Hf2)].
  split; [|repeat split; congruence].
  exists (d1 ++ d2). rewrite E2, E1, app_assoc.
  split; [reflexivity | now apply Forall_app].
Qed.

Lemma quiet_bind (m : M A) (k : A -> M B) :
  quiet P m -> (forall a, quiet P (k a)) -> quiet P (bind m k).
Proof.
  intros Hm Hk w. unfold bind. specialize (Hm w).
  destruct (m w) as [[a|e] w1]; simpl in *; [|exact Hm].
  exact (quiet_then _ _ _ Hm (Hk a w1)).
Qed.

Lemma quiet_try_except_all (body : M A) (h : exn -> M A) :
  quiet P body -> (forall e, quiet P (h e)) -> quiet P (try_except_all body h).
Proof.
  intros Hm Hh w. unfold try_except_all. specialize (Hm w).
  destruct (body w) as [[a|e] w1]; simpl in *; [exact Hm|].
  exact (quiet_then _ _ _ Hm (Hh e w1)).
Qed.

Lemma quiet_emit (ev : event) : P ev -> quiet P (emit ev).
Proof.
  intros Hev w. simpl. split; [|repeat split].
  exists [ev]. split; [reflexivity | now repeat constructor].
Qed.

End Quiet.

Lemma quiet_weaken (P Q : event -> Prop) {A : Type} (m : M A) :
  (forall ev, P ev -> Q ev) -> quiet P m -> quiet Q m.
Proof.
  intros Himp Hm w. destruct (Hm w) as [(d & E & F) Hrest].
  split; [|exact Hrest]. exists d. split; [exact E|].
  exact (Forall_impl _ Himp F).
Qed.

Lemma quiet_now (P : event -> Prop) (os : platform) :
  quiet P (now_isoformat os).
Proof.
  intros w. simpl. split; [|repeat split].
  exists []. rewrite app_nil_r. split; [reflexivity | constructor].
Qed.

Ltac quiet_step :=
  match goal with
  | |- quiet _ (ret _) => apply quiet_ret
  | |- quiet _ (raise _) => apply quiet_raise
  | |- quiet _ (lift _) => apply quiet_lift
  | |- quiet _ (now_isoformat _) => apply quiet_now
  | |- quiet _ (logger _ _) => apply quiet_emit; exact I
  | |- quiet _ (bind _ _) => apply quiet_bind; [|intros ?]
  | |- quiet _ (try_except_all _ _) => apply quiet_try_except_all; [|intros ?]
  | |- quiet _ (if ?b then _ else _) => destruct b eqn:?
  | |- quiet _ (match ?x with _ => _ end) => destruct x eqn:?
  end.

Section SinkEvents.

Variable py : python.
Variable os : platform.
Variable model : string.
Variables old_price new_price : PrimFloat.float.

Lemma quiet_raise_for_status (P : event -> Prop) (r : response) :
  quiet P (raise_for_status r).
Proof. unfold raise_for_status. repeat quiet_step. Qed.

Ltac quiet_done :=
  split; [|repeat split];
  eexists; split;
  [ simpl; rewrite <- ?app_assoc; simpl; reflexivity
  | repeat (apply Forall_cons; [try exact I|]); try apply Forall_nil ].

Lemma quiet_send_webhook :
  quiet (sink_event py os model old_price new_price)
    (send_webhook_notification os model old_price new_price).
Proof.
  unfold send_webhook_notification.
  destruct (environ os "WEBHOOK_URL") as [url|] eqn:Hurl; simpl;
    [|repeat quiet_step].
  destruct (str_truthy url) eqn:Htruthy; simpl; [|repeat quiet_step].
  intros w. unfold try_except_all, bind, lift, truediv.
  destruct (old_price =? 0)%float eqn:Hzero; [quiet_done|].
  unfold now_isoformat, emit, raise_for_status, logger, emit, raise, ret.
  assert (Hev : forall p,
             p = payload_for os model old_price new_price w ->
             sink_event py os model old_price new_price (EvPost url p)).
  { intros p ->. simpl. repeat split; try assumption. now exists w. }
  destruct (requests_post os url _) as [r|]; simpl.
  - destruct ((400 <=? status_code r)%Z && (status_code r <? 600)%Z); simpl;
      quiet_done; now apply Hev.
  - quiet_done. now apply Hev.
Qed.

Lemma quiet_send_email :
  quiet (sink_event py os model old_price new_price)
    (send_email_notification py os model old_price new_price).
Proof.
  unfold send_email_notification, int.
  destruct (int_of_str py (getenv os "SMTP_PORT" "587")) as [port|] eqn:Hport;
    [|now apply quiet_same].
  intros w. unfold bind at 1, lift at 1.
  fold (smtp_configured os).
  destruct (smtp_configured os) eqn:Hconf; simpl; [|quiet_done].
  unfold try_except_all, bind, lift, truediv.
  destruct (old_price =? 0)%float eqn:Hzero; [quiet_done|].
  unfold emit, logger, emit, raise, ret.
  assert (Hev : sink_event py os model old_price new_price
                  (EvSmtp (or_empty (environ os "SMTP_HOST")) port
                     (message_for os model old_price new_price))).
  { simpl. repeat split; try assumption.
    unfold smtp_configured in Hconf. simpl in Hconf.
    destruct (environ os "SMTP_HOST"); [reflexivity | discriminate]. }
  fold (message_for os model old_price new_price).
  destruct (smtp_session os _ _ _ _ _) as [e|]; simpl;
    quiet_done; exact Hev.
Qed.

End SinkEvents.

Lemma get_threshold_is (py : python) (os : platform) (model : string)
  (w : world) :
  get_threshold py os model w = (threshold_of py os model, w).
Proof.
  unfold get_threshold, threshold_of.
  destruct (nth_error (py_split model) 1); reflexivity.
Qed.

Lemma quiet_bind_ok (P : event -> Prop) {A B : Type} (a : A) (k : A -> M B) :
  quiet P (k a) -> quiet P (bind (lift (Ok a)) k).
Proof. intros H w. exact (H w). Qed.

Lemma quiet_bind_threshold (P : event -> Prop) {B : Type} (py : python)
  (os : platform) (model : string) (k : PrimFloat.float -> M B) :
  (forall t, threshold_of py os model = Ok t -> quiet P (k t)) ->
  quiet P (bind (get_threshold py os model) k).
Proof.
  intros H w. unfold bind. rewrite get_threshold_is.
  destruct (threshold_of py os model) as [t|e] eqn:Ht; simpl.
  - exact (H t eq_refl w).
  - split; [|repeat split].
    exists []. rewrite app_nil_r. split; [reflexivity | constructor].
Qed.

(** A delivery of a sink called on an alert is a delivery of the run, and
    a sink makes no page request. *)
Lemma sink_event_run_event (py : python) (os : platform) (model : string)
  (old_price new_price : PrimFloat.float) (ev : event) :
  alert py os model old_price new_price ->
  sink_event py os model old_price new_price ev ->
  is_request ev = false /\ run_event py os ev.
Proof.
  intros Halert. destruct ev as [lvl msg| |url|url p|host port msg]; simpl;
    try tauto.
  - intros (Hurl & Htruthy & Hzero & w & ->). simpl.
    split; [reflexivity|].
    split; [exact Halert|]. repeat split; try assumption. now exists w.
  - intros (Hconf & Hhost & Hport & Hzero & ->). simpl.
    split; [reflexivity|].
    split; [exact Halert|]. repeat split; assumption.
Qed.

Lemma quiet_detect (py : python) (os : platform) (model : string)
  (price : PrimFloat.float) (prices : list entry) (config : Config.t) :
  dict_get MODELS model = Some config ->
  quiet (fun ev => is_request ev = false /\ run_event py os ev)
    (detect py os model price prices).
Proof.
  intros Hconfig. unfold detect.
  destruct (get_latest_price (removelast prices) model) as [old|];
    [|apply quiet_ret].
  destruct (F64.truthy old) eqn:Ht; [|apply quiet_ret].
  apply quiet_bind_threshold. intros t Hthreshold.
  rewrite (check_price_drop_truthy _ _ _ Ht).
  apply quiet_bind_ok.
  destruct (t <=? (old - price) / old * 100)%float eqn:Hdrop;
    [|apply quiet_ret].
  assert (Halert : alert py os model old price).
  { split; [now exists config|]. now exists t. }
  apply quiet_bind; [apply quiet_emit; now split | intros _].
  apply quiet_bind; [|intros _].
  { apply (quiet_weaken (sink_event py os model old price));
      [intros ev; now apply sink_event_run_event | apply quiet_send_email]. }
  apply quiet_bind; [|intros _; apply quiet_ret].
  apply (quiet_weaken (sink_event py os model old price));
    [intros ev; now apply sink_event_run_event | apply quiet_send_webhook].
Qed.

(** ** The run as a whole *)

Lemma send_email_raises (py : python) (os : platform) (model : string)
  (old_price new_price : PrimFloat.float) (w : world) (e : exn) :
  fst (send_email_notification py os model old_price new_price w) = Raise e ->
  e = ValueError /\ int_of_str py (getenv os "SMTP_PORT" "587") = None.
Proof.
  destruct (int_of_str py (getenv os "SMTP_PORT" "587")) as [port|] eqn:Hport.
  - destruct (send_email_returns py os model old_price new_price w port Hport)
      as (sent & w' & ->).
    discriminate.
  - unfold send_email_notification, int. rewrite Hport.
    intros [= <-]. now split.
Qed.

(** The detection step raises only what [get_threshold] raises, or the
    [ValueError] of a port that [int] rejects. *)
Lemma detect_raises (py : python) (os : platform) (model : string)
  (price : PrimFloat.float) (prices : list entry) (w : world) (e : exn) :
  fst (detect py os model price prices w) = Raise e ->
  threshold_of py os model = Raise e \/
  (e = ValueError /\ int_of_str py (getenv os "SMTP_PORT" "587") = None).
Proof.
  unfold detect.
  destruct (get_latest_price (removelast prices) model) as [old|];
    [|discriminate].
  destruct (F64.truthy old) eqn:Ht; [|discriminate].
  unfold bind at 1. rewrite get_threshold_is.
  destruct (threshold_of py os model) as [t|e0]; cbv beta iota;
    [|intros [= <-]; now left].
  rewrite (check_price_drop_truthy _ _ _ Ht).
  unfold bind at 1, lift at 1.
  destruct (t <=? (old - price) / old * 100)%float; [|discriminate].
  unfold bind at 1, logger at 1, emit at 1. unfold bind at 1.
  match goal with
  | |- context [send_email_notification py os model old price ?w0] =>
      pose proof (send_email_raises py os model old price w0) as Hmail;
      destruct (send_email_notification py os model old price w0)
        as [[sent|e1] w1]
  end; simpl.
  - unfold bind at 1.
    destruct (send_webhook_returns os model old price w1)
      as (posted & w2 & ->).
    discriminate.
  - intros [= <-]. right. now apply Hmail.
Qed.

Lemma registry_key (model : string) (config : Config.t) :
  dict_get MODELS model = Some config -> In model (keys MODELS).
Proof.
  unfold MODELS, dict_get, keys, map, fst.
  repeat match goal with
         | |- context [String.eqb ?k model] =>
             destruct (String.eqb_spec k model) as [<-|_];
             [intros _; simpl; tauto|]
         end.
  discriminate.
Qed.

(** The name of a model of the registry has a second word: its threshold
    is a number, or [float] rejected the variable. *)
Lemma threshold_of_registry (py : python) (os : platform) (model : string)
  (e : exn) :
  In model (keys MODELS) ->
  threshold_of py os model = Raise e -> e = ValueError.
Proof.
  unfold threshold_of, float.
  intros [<-|[<-|[<-|[]]]]; simpl;
    match goal with
    | |- context [float_of_str py ?s] => destruct (float_of_str py s)
    end; congruence.
Qed.

Lemma log_events (py : python) (os : platform) (logged : list event) :
  forallb is_log logged = true ->
  Forall (run_event py os) logged /\ filter is_request logged = [].
Proof.
  induction logged as [|ev rest IH]; simpl; [now split|].
  destruct ev; simpl; try discriminate.
  intros H. destruct (IH H) as [HF Hr]. split; [now constructor | exact Hr].
Qed.

Lemma records_of_app (ts : string) (l1 l2 : list string)
  (a1 a2 : list entry) :
  records_of ts l1 a1 -> records_of ts l2 a2 ->
  records_of ts (l1 ++ l2) (a1 ++ a2).
Proof.
  intros H1 H2. induction H1; simpl.
  - exact H2.
  - now apply records_skip.
  - now apply records_take.
Qed.

Lemma records_of_none (ts : string) (l : list string) : records_of ts l [].
Proof. induction l; [apply records_nil | now apply records_skip]. Qed.

Section Progress.

Variable py : python.
Variable os : platform.
Variable ts : string.

Lemma progress_trans (d1 d2 m1 m2 : list string) (a b c : world) :
  progress py os ts d1 m1 a b -> progress py os ts d2 m2 b c ->
  progress py os ts (d1 ++ d2) (m1 ++ m2) a c.
Proof.
  intros (e1 & a1 & E1 & F1 & Q1 & P1 & N1 & D1 & R1)
         (e2 & a2 & E2 & F2 & Q2 & P2 & N2 & D2 & R2).
  exists (e1 ++ e2), (a1 ++ a2).
  rewrite E2, E1, P2, P1, N2, N1, D2, D1, <- !app_assoc.
  rewrite filter_app, flat_map_app, Q1, Q2.
  repeat split; [now apply Forall_app | now apply records_of_app].
Qed.

Lemma progress_more (done models rest : list string) (a b : world) :
  progress py os ts done models a b ->
  progress py os ts done (models ++ rest) a b.
Proof.
  intros (e1 & a1 & E1 & F1 & Q1 & P1 & N1 & D1 & R1).
  exists e1, a1. repeat split; try assumption.
  rewrite <- (app_nil_r a1). apply records_of_app; [exact R1|].
  apply records_of_none.
Qed.

(** A step whose fetch found a price is the detection step run after the
    observation is recorded and the price logged. *)
Lemma main_step_found (model : string) (w w1 : world)
  (price : PrimFloat.float) (config : Config.t) :
  fetch_price py os model w = (Ok (Some price), w1) ->
  dict_get MODELS model = Some config ->
  main_step py os ts model w
  = detect py os model price (prices w1 ++ [recorded ts model price config])
      (add_events
         (set_prices
            (set_new_entries w1
               (new_entries w1 ++ [recorded ts model price config]))
            (prices w1 ++ [recorded ts model price config]))
         [EvLog INFO (MsgPrice model price)]).
Proof.
  intros Hfetch Hconfig. unfold main_step. unfold bind at 1.
  rewrite Hfetch, Hconfig. reflexivity.
Qed.

Lemma progress_step (model : string) (w : world) :
  progress py os ts [model] [model] w (snd (main_step py os ts model w)) /\
  forall e,
    fst (main_step py os ts model w) = Raise e ->
    e = ValueError /\ bad_number py os [model].
Proof.
  destruct (fetch_price_trace py os model w)
    as (found & logged & Hlog & Hrun & Hnone).
  destruct (log_events py os logged Hlog) as [Hlogged Hquiet].
  unfold progress, plan, flat_map. rewrite app_nil_r.
  destruct (dict_get MODELS model) as [config|] eqn:Hconfig.
  - assert (Hget : run_event py os (EvGet (Config.url config)))
      by (now exists model, config).
    destruct found as [price|].
    + rewrite (main_step_found model w _ price config Hrun Hconfig).
      match goal with
      | |- context [detect py os model price ?l ?w0] =>
          pose proof (detect_raises py os model price l w0) as Hraise;
          destruct (quiet_detect py os model price l config Hconfig w0)
            as [(delta & Hev & Hdelta) (Hp & Hn & Hf)];
          destruct (detect py os model price l w0) as [r w2]
      end.
      cbn [fst snd] in *. split.
      * exists ((EvLog INFO (MsgFetching model (Config.source config))
                 :: EvSleep :: EvGet (Config.url config) :: logged)
                ++ EvLog INFO (MsgPrice model price) :: delta),
               [recorded ts model price config].
        rewrite Hev, Hp, Hn, Hf.
        cbn [events prices new_entries prices_file add_events set_prices
             set_new_entries].
        rewrite <- !app_assoc.
        assert (Hnot : filter is_request delta = []).
        { clear - Hdelta. induction Hdelta as [|ev l [Hev _] _ IH];
            [reflexivity|]. cbn [filter]. now rewrite Hev. }
        rewrite filter_app. cbn [filter is_request].
        rewrite Hquiet, Hnot.
        repeat split.
        -- apply Forall_app. split.
           ++ repeat (apply Forall_cons; [exact I || exact Hget|]).
              exact Hlogged.
           ++ apply Forall_cons; [exact I|].
              apply (Forall_impl _ (fun ev H => proj2 H) Hdelta).
        -- apply records_take; [exact Hconfig | apply records_nil].
      * intros e He. destruct (Hraise e He) as [Ht | [-> Hport]].
        -- assert (e = ValueError) as ->
             by (eapply threshold_of_registry;
                 [eapply registry_key; exact Hconfig | exact Ht]).
           split; [reflexivity|]. right. exists model.
           split; [now left | exact Ht].
        -- split; [reflexivity|]. now left.
    + assert (Hstep : main_step py os ts model w
                      = logger WARNING (MsgSkipping model)
                          (add_events w
                             (EvLog INFO
                                (MsgFetching model (Config.source config))
                              :: EvSleep :: EvGet (Config.url config)
                              :: logged)))
        by (unfold main_step; unfold bind at 1; now rewrite Hrun).
      rewrite Hstep. cbn [fst snd logger emit]. split; [|discriminate].
      exists ((EvLog INFO (MsgFetching model (Config.source config))
               :: EvSleep :: EvGet (Config.url config) :: logged)
              ++ [EvLog WARNING (MsgSkipping model)]), [].
      cbn [events prices new_entries prices_file add_events].
      rewrite <- !app_assoc, !app_nil_r.
      rewrite filter_app. cbn [filter is_request]. rewrite Hquiet.
      repeat split.
      * apply Forall_app. split.
        -- repeat (apply Forall_cons; [exact I || exact Hget|]).
           exact Hlogged.
        -- apply Forall_cons; [exact I | apply Forall_nil].
      * apply records_of_none.
  - destruct Hnone as [-> ->].
    assert (Hstep : main_step py os ts model w
                    = logger WARNING (MsgSkipping model)
                        (add_events w [EvLog ERROR (MsgUnknownModel model)]))
      by (unfold main_step; unfold bind at 1; now rewrite Hrun).
    rewrite Hstep. cbn [fst snd logger emit]. split; [|discriminate].
    exists [EvLog ERROR (MsgUnknownModel model);
            EvLog WARNING (MsgSkipping model)], [].
    cbn [events prices new_entries prices_file add_events].
    rewrite <- !app_assoc, !app_nil_r.
    repeat split.
    + repeat (apply Forall_cons; [exact I|]). apply Forall_nil.
    + apply records_of_none.
Qed.

Lemma progress_loop (models : list string) (w : world) :
  exists done rest,
    models = done ++ rest /\
    progress py os ts done models w (snd (main_loop py os ts models w)) /\
    match fst (main_loop py os ts models w) with
    | Ok _ => rest = []
    | Raise e => e = ValueError /\ bad_number py os done
    end.
Proof.
  revert w. induction models as [|model rest IH]; intros w.
  - exists [], []. split; [reflexivity|]. split; [|reflexivity].
    exists [], []. rewrite !app_nil_r. repeat split; constructor.
  - change (main_loop py os ts (model :: rest))
      with (main_step py os ts model ;; main_loop py os ts rest).
    unfold bind.
    destruct (progress_step model w) as [Hstep Hraise].
    destruct (main_step py os ts model w) as [[[]|e] w1]; simpl in *.
    + destruct (IH w1) as (done & rest' & -> & Hrest & Hend).
      exists (model :: done), rest'. split; [reflexivity|]. split.
      * exact (progress_trans [model] done [model] (done ++ rest') _ _ _
                 Hstep Hrest).
      * destruct (fst (main_loop py os ts (done ++ rest') w1)) as [[]|e];
          [exact Hend|].
        destruct Hend as [-> [Hport | (m & Hin & Hm)]];
          (split; [reflexivity|]); [now left|].
        right. exists m. split; [now right | exact Hm].
    + exists [model], rest. split; [reflexivity|]. split.
      * exact (progress_more [model] [model] rest _ _ Hstep).
      * exact (Hraise e eq_refl).
Qed.

End Progress.

Lemma load_prices_logs (py : python) (os : platform) (w : world) :
  exists loaded logged,
    load_prices py os w = (Ok loaded, add_events w logged) /\
    forallb is_log logged = true.
Proof.
  unfold load_prices, read_json, try_except.
  destruct (prices_file w) as [text|].
  - destruct (disk_read_fails os); simpl.
    + eexists [], [_]. split; reflexivity.
    + destruct (json_load py text) as [data|]; simpl.
      * exists data, []. rewrite add_events_nil. split; reflexivity.
      * eexists [], [_]. split; reflexivity.
  - exists [], []. rewrite add_events_nil. split; reflexivity.
Qed.


(** What a run of [main] does, in one statement. *)
Lemma main_summary (py : python) (os : platform) (w : world) :
  exists loaded done rest delta,
    fst (load_prices py os (add_events w [EvLog INFO MsgStarting]))
    = Ok loaded /\
    keys MODELS = done ++ rest /\
    events (snd (main py os w)) = events w ++ delta /\
    Forall (run_event py os) delta /\
    filter is_request delta = flat_map plan done /\
    prices (snd (main py os w)) = loaded ++ new_entries (snd (main py os w)) /\
    records_of (datetime_now os (ticks w)) (keys MODELS)
      (new_entries (snd (main py os w))) /\
    match fst (main py os w) with
    | Ok _ =>
        rest = [] /\
        prices_file (snd (main py os w))
        = match disk_write os with
          | WriteOk =>
              Some (json_dump py (prices (snd (main py os w))) 2)
          | OpenFails => prices_file w
          | WriteFails n =>
              Some (substring 0 n
                      (json_dump py (prices (snd (main py os w))) 2))
          end
    | Raise e =>
        e = ValueError /\ bad_number py os done /\
        prices_file (snd (main py os w)) = prices_file w
    end.
Proof.
  destruct (load_prices_logs py os (add_events w [EvLog INFO MsgStarting]))
    as (loaded & logged & Hload & Hlog).
  destruct (log_events py os logged Hlog) as [Hlogged Hquiet].
  rewrite Hload.
  remember (main py os w) as out eqn:Hout.
  rewrite (main_unfold py os w loaded logged Hload) in Hout.
  set (ts := datetime_now os (ticks w)) in *.
  set (models := keys MODELS) in *.
  destruct (progress_loop py os ts models (loop_start w loaded logged))
    as (done & rest & Hsplit
        & (delta & added & E & F & Q & P & N & D & R) & Hend).
  change (events (loop_start w loaded logged))
    with ((events w ++ [EvLog INFO MsgStarting]) ++ logged) in E.
  change (prices (loop_start w loaded logged)) with loaded in P.
  change (new_entries (loop_start w loaded logged)) with (@nil entry) in N.
  change (prices_file (loop_start w loaded logged)) with (prices_file w) in D.
  unfold bind at 1 in Hout.
  destruct (main_loop py os ts models (loop_start w loaded logged))
    as [[[]|e] w1]; cbn [fst snd] in *.
  - unfold bind, get_prices, save_prices, write_json, try_except, logger, emit
      in Hout.
    exists loaded, done, rest,
      ((EvLog INFO MsgStarting :: logged) ++ delta
       ++ [match disk_write os with
           | WriteOk => EvLog INFO (MsgSaved (List.length (prices w1)))
           | _ => EvLog ERROR (MsgSaveError IOError)
           end; EvLog INFO MsgCompleted]).
    split; [reflexivity|]. split; [exact Hsplit|].
    assert (Hf : Forall (run_event py os)
                   ((EvLog INFO MsgStarting :: logged) ++ delta
                    ++ [match disk_write os with
                        | WriteOk =>
                            EvLog INFO (MsgSaved (List.length (prices w1)))
                        | _ => EvLog ERROR (MsgSaveError IOError)
                        end; EvLog INFO MsgCompleted])).
    { apply Forall_app. split; [now apply Forall_cons|].
      apply Forall_app. split; [exact F|].
      destruct (disk_write os); now repeat constructor. }
    assert (Hq : filter is_request
                   ((EvLog INFO MsgStarting :: logged) ++ delta
                    ++ [match disk_write os with
                        | WriteOk =>
                            EvLog INFO (MsgSaved (List.length (prices w1)))
                        | _ => EvLog ERROR (MsgSaveError IOError)
                        end; EvLog INFO MsgCompleted])
                 = flat_map plan done).
    { rewrite !filter_app. cbn [filter is_request]. rewrite Hquiet, Q.
      destruct (disk_write os); cbn [filter is_request app];
        now rewrite app_nil_r. }
    destruct (disk_write os); simpl in Hout; subst out;
      cbn [fst snd events prices new_entries prices_file add_events set_file];
      rewrite ?E, ?N, ?D, <- ?app_assoc;
      repeat split; try assumption; try reflexivity.
  - destruct Hend as [-> Hbad]. subst out. cbn [fst snd].
    exists loaded, done, rest, ((EvLog INFO MsgStarting :: logged) ++ delta).
    rewrite E, P, N, D, <- !app_assoc.
    repeat split; try assumption.
    + apply Forall_app. split; [now apply Forall_cons | exact F].
    + rewrite filter_app. cbn [filter is_request]. now rewrite Hquiet.
Qed.

(** Property X15: a run sleeps before every page request and requests
    the pages of the registry in its order, one request for each model it
    gets to: the sleeps and requests of the whole run are those planned for
    a prefix of the registry, and for all of it when [main] returns. Nothing
    else in a run sleeps or fetches a page. *)
Theorem main_requests_follow_registry (py : python) (os : platform)
  (w : world) :
  exists delta done rest,
    keys MODELS = done ++ rest /\
    events (snd (main py os w)) = events w ++ delta /\
    filter is_request delta = flat_map plan done /\
    match fst (main py os w) with
    | Ok _ => rest = []
    | Raise _ => True
    end.
Proof.
  destruct (main_summary py os w)
    as (loaded & done & rest & delta & _ & Hsplit & E & _ & Q & _ & _ & Hend).
  exists delta, done, rest. repeat split; try assumption.
  destruct (fst (main py os w)); [exact (proj1 Hend) | exact I].
Qed.

(** Property X16: whatever the pages, the history and the environment, a
    run posts to the webhook or opens a mail session only for an alert: the
    model is in the registry, its threshold was read and the drop in
    percent from the old to the new price reaches it, the old price is not
    zero, the sink is configured, and the content is the one built from the
    model and the two prices. Every page request goes to a URL of the
    registry. *)
Theorem main_delivers_only_alerts (py : python) (os : platform) (w : world) :
  exists delta,
    events (snd (main py os w)) = events w ++ delta /\
    Forall (run_event py os) delta.
Proof.
  destruct (main_summary py os w)
    as (loaded & done & rest & delta & _ & _ & E & F & _).
  now exists delta.
Qed.

(** Property X17: the observations of a run, in [new_entries], are at
    most one for each model of the registry, in the order of the registry,
    each stamped with the reading of the clock taken before the loop and
    carrying the source, the URL and the image of its model; whatever
    [new_entries] held before the run is dropped. *)
Theorem main_records_in_registry_order (py : python) (os : platform)
  (w : world) :
  records_of (datetime_now os (ticks w)) (keys MODELS)
    (new_entries (snd (main py os w))).
Proof.
  destruct (main_summary py os w)
    as (loaded & done & rest & delta & _ & _ & _ & _ & _ & _ & R & _).
  exact R.
Qed.

(** Property X18: a run that ends with an exception has not touched the
    file: the observations made before the exception are lost. *)
Theorem aborted_run_saves_nothing (py : python) (os : platform) (w : world)
  (e : exn) :
  fst (main py os w) = Raise e ->
  prices_file (snd (main py os w)) = prices_file w.
Proof.
  intros He.
  destruct (main_summary py os w)
    as (loaded & done & rest & delta & _ & _ & _ & _ & _ & _ & _ & Hend).
  rewrite He in Hend. exact (proj2 (proj2 Hend)).
Qed.

Lemma aborted_run_saves_nothing_witness :
  fst (main literal_python shop_bad_port (stored 1000)) = Raise ValueError /\
  prices_file (snd (main literal_python shop_bad_port (stored 1000)))
  = prices_file (stored 1000).
Proof.
  split; [vm_compute; reflexivity|].
  apply (aborted_run_saves_nothing literal_python shop_bad_port (stored 1000)
           ValueError).
  vm_compute. reflexivity.
Defined.

(** Property X19: a run that returns has saved. With a write that
    succeeds the file holds the dump, with indent 2, of the loaded history
    followed by the observations of the run; when the file cannot be opened
    it keeps what it had; when the write fails part-way it holds the
    characters written so far. *)
Theorem completed_run_saves_history (py : python) (os : platform)
  (w : world) :
  fst (main py os w) = Ok tt ->
  exists loaded,
    fst (load_prices py os (add_events w [EvLog INFO MsgStarting]))
    = Ok loaded /\
    prices_file (snd (main py os w))
    = match disk_write os with
      | WriteOk =>
          Some (json_dump py
                  (loaded ++ new_entries (snd (main py os w))) 2)
      | OpenFails => prices_file w
      | WriteFails n =>
          Some (substring 0 n
                  (json_dump py
                     (loaded ++ new_entries (snd (main py os w))) 2))
      end.
Proof.
  intros He.
  destruct (main_summary py os w)
    as (loaded & done & rest & delta & Hload & _ & _ & _ & _ & P & _ & Hend).
  exists loaded. split; [exact Hload|].
  rewrite He in Hend. rewrite <- P. exact (proj2 Hend).
Qed.

Lemma completed_run_saves_history_witness :
  fst (main literal_python shop (stored 1000)) = Ok tt /\
  exists loaded,
    fst (load_prices literal_python shop
           (add_events (stored 1000) [EvLog INFO MsgStarting]))
    = Ok loaded /\
    prices_file (snd (main literal_python shop (stored 1000)))
    = Some (json_dump literal_python
              (loaded
               ++ new_entries (snd (main literal_python shop (stored 1000))))
              2).
Proof.
  split; [vm_compute; reflexivity|].
  apply (completed_run_saves_history literal_python shop (stored 1000)).
  vm_compute. reflexivity.
Defined.



(** ** An alert is delivered *)

Lemma deliveries_logs (logged : list event) :
  forallb is_log logged = true -> deliveries logged = [].
Proof.
  induction logged as [|ev rest IH]; [reflexivity|].
  destruct ev; simpl; try discriminate. exact IH.
Qed.

(** Property X21: a drop that reaches the threshold is delivered. When
    the fetch finds a price for a model of the registry, the latest stored
    price of the model is truthy, the threshold is read and the drop in
    percent reaches it, and [int] accepts the port, the step returns and
    adds to the deliveries of the trace, in this order, one mail session if
    the email sink is configured and one POST if the webhook is: both sinks
    are called with the stored price as the old price and the fetched price
    as the new one, the email sink first. *)
Theorem alert_is_delivered (py : python) (os : platform) (ts model : string)
  (w : world) (price old t : PrimFloat.float) (config : Config.t) (port : Z) :
  fst (fetch_price py os model w) = Ok (Some price) ->
  dict_get MODELS model = Some config ->
  get_latest_price (prices w) model = Some old ->
  F64.truthy old = true ->
  threshold_of py os model = Ok t ->
  (t <=? (old - price) / old * 100)%float = true ->
  int_of_str py (getenv os "SMTP_PORT" "587") = Some port ->
  exists w',
    main_step py os ts model w = (Ok tt, w') /\
    deliveries (events w')
    = deliveries (events w)
      ++ (if smtp_configured os
          then [EvSmtp (or_empty (environ os "SMTP_HOST")) port
                  (message_for os model old price)]
          else [])
      ++ (if opt_truthy (environ os "WEBHOOK_URL")
          then [EvPost (or_empty (environ os "WEBHOOK_URL"))
                  (payload_for os model old price w)]
          else []).
Proof.
  intros Hfetch Hconfig Hold Htruthy Hthreshold Hdrop Hport.
  destruct (fetch_price_trace py os model w)
    as (found & logged & Hlog & Hrun & _).
  rewrite Hrun in Hfetch. cbn [fst] in Hfetch. injection Hfetch as ->.
  rewrite Hconfig in Hrun.
  rewrite (main_step_found py os ts model w _ price config Hrun Hconfig).
  unfold detect. cbn [prices add_events]. rewrite removelast_last.
  rewrite Hold, Htruthy.
  unfold bind at 1. rewrite get_threshold_is, Hthreshold. cbv beta iota.
  rewrite (check_price_drop_truthy _ _ _ Htruthy).
  unfold bind at 1, lift at 1. rewrite Hdrop.
  unfold bind at 1, logger at 1, emit at 1. unfold bind at 1.
  match goal with
  | |- context [send_email_notification py os model old price ?w0] =>
      destruct (send_email_run py os model old price w0 port Hport)
        as (sent & mailed & -> & Hmail)
  end.
  unfold bind at 1.
  match goal with
  | |- context [send_webhook_notification os model old price ?w1] =>
      destruct (send_webhook_run os model old price w1)
        as (posted & w2 & -> & _ & _ & _ & Hpost)
  end.
  exists w2. split; [reflexivity|].
  rewrite (F64Facts.truthy_not_zero _ Htruthy), Bool.andb_true_r
    in Hmail, Hpost.
  pose proof (deliveries_logs logged Hlog) as Hnone.
  unfold deliveries in *.
  cbn [events add_events set_prices set_new_entries] in Hpost.
  rewrite !filter_app in Hpost.
  cbn [filter is_notification] in Hpost.
  rewrite Hnone, !app_nil_r in Hpost.
  destruct (smtp_configured os);
    destruct (opt_truthy (environ os "WEBHOOK_URL"));
    destruct Hmail as [Hmail _]; destruct Hpost as [Hpost _];
    rewrite Hpost, Hmail, <- ?app_assoc, ?app_nil_r; reflexivity.
Qed.

Lemma alert_is_delivered_witness :
  exists w',
    main_step literal_python shop "2024-05-03T09:00:00" "iPhone 16 Pro Max"
      (loaded_world 1000)
    = (Ok tt, w') /\
    deliveries (events w')
    = [EvPost "https://hooks.example.org/drop"
         (payload_for shop "iPhone 16 Pro Max" 1000 940 (loaded_world 1000))].
Proof.
  destruct (alert_is_delivered literal_python shop "2024-05-03T09:00:00"
              "iPhone 16 Pro Max" (loaded_world 1000) 940 1000 5
              (Config.Build "reebelo" reebelo_url "256GB"
                 "https://store.storeimages.cdn-apple.com/4982/as-images.apple.com/is/iphone-16-pro-max-naturaltitanium-select?wid=200&hei=200&fmt=jpeg&qlt=90&.v=1726616109456")
              587)
    as (w' & Hstep & Hdel).
  - vm_compute. reflexivity.
  - reflexivity.
  - vm_compute. reflexivity.
  - vm_compute. reflexivity.
  - vm_compute. reflexivity.
  - vm_compute. reflexivity.
  - vm_compute. reflexivity.
  - exists w'. split; [exact Hstep | exact Hdel].
Defined.
